(** * Smart Notes front end: the controller logic of [frontend/src/App.jsx]

    The React component [App] keeps eleven pieces of state and a handful of
    handlers; five of them ([fetchNotes], [fetchAnalytics], [handleSearch],
    [saveNote], [deleteNote]) are asynchronous and suspend at every
    [await].  The
    development embeds

    - JavaScript strings as sequences of UTF-16 code units, with the
      built-ins the component calls ([trim], [substring], [slice]);
    - the component state as a record, one field per [useState];
    - the handlers as terms of a small resumption monad ([Task]): state
      updates, console/dialog effects, [fetch] suspensions and
      [try]/[catch];
    - two readings of a task: [exec], which runs one handler from its call
      to its end, and [step], the event loop in which user events and
      responses of outstanding requests interleave. *)

From Stdlib Require Import List ZArith NArith QArith Bool String Ascii Lia.
Import ListNotations.

Open Scope Z_scope.

(** ** JavaScript strings *)

Module JS.

(** A string value is a finite sequence of 16-bit code units. *)
Definition jsstring := list N.

(** An ASCII literal of the source as a string value. *)
Definition lit (s : string) : jsstring :=
  map N_of_ascii (list_ascii_of_string s).

(** WhiteSpace and LineTerminator code points of ECMAScript, the characters
    [String.prototype.trim] strips. *)
Definition isWhiteSpace (c : N) : bool :=
  match c with
  | 9 | 10 | 11 | 12 | 13 | 32 | 160 | 5760
  | 8232 | 8233 | 8239 | 8287 | 12288 | 65279 => true
  | _ => (8192 <=? c) && (c <=? 8202)
  end%N.

Fixpoint trimStart (s : jsstring) : jsstring :=
  match s with
  | [] => []
  | c :: r => if isWhiteSpace c then trimStart r else s
  end.

Definition trimEnd (s : jsstring) : jsstring := rev (trimStart (rev s)).

Definition trim (s : jsstring) : jsstring := trimEnd (trimStart s).

(** ToBoolean on a string: only the empty string is falsy. *)
Definition truthy (s : jsstring) : bool :=
  match s with [] => false | _ :: _ => true end.

(** [s.substring(a, b)] for non-negative arguments: the arguments are
    swapped when [a > b] and clamped to the length. *)
Definition substring (a b : nat) (s : jsstring) : jsstring :=
  firstn (Nat.max a b - Nat.min a b) (skipn (Nat.min a b) s).

(** [l.slice(a, b)] on an array, for non-negative arguments. *)
Definition slice {A : Type} (a b : nat) (l : list A) : list A :=
  skipn a (firstn b l).

(** A string made of white space only. *)
Definition blank (s : jsstring) : bool := forallb isWhiteSpace s.

End JS.

Import JS.

(** ** Data model *)

Module Note.
(** A note as the backend returns it. *)
Record t : Type := mk {
  id : Z;
  title : jsstring;
  content : jsstring;
  is_public : bool;
  tags : jsstring;
  version : Z;
  view_count : Z;
  updated_at : jsstring
}.
End Note.

Module Draft.
(** The object held in [currentNote]: every [setCurrentNote] of the source
    builds it with exactly these five keys, in this order. *)
Record t : Type := mk {
  title : jsstring;
  content : jsstring;
  is_public : bool;
  tags : jsstring;
  version : Z
}.

(** The object literal of lines 17-23, 162-168 and 176-182. *)
Definition default : t :=
  {| title := []; content := []; is_public := false; tags := [];
     version := 1 |}.

(** The object literal of lines 153-159. *)
Definition of_note (note : Note.t) : t :=
  {| title := Note.title note; content := Note.content note;
     is_public := Note.is_public note; tags := Note.tags note;
     version := Note.version note |}.

(** [{...currentNote, title: v}] and its three siblings (lines 536-569). *)
Definition with_title (v : jsstring) (d : t) : t :=
  {| title := v; content := content d; is_public := is_public d;
     tags := tags d; version := version d |}.
Definition with_tags (v : jsstring) (d : t) : t :=
  {| title := title d; content := content d; is_public := is_public d;
     tags := v; version := version d |}.
Definition with_content (v : jsstring) (d : t) : t :=
  {| title := title d; content := v; is_public := is_public d;
     tags := tags d; version := version d |}.
Definition with_is_public (v : bool) (d : t) : t :=
  {| title := title d; content := content d; is_public := v;
     tags := tags d; version := version d |}.
End Draft.

Record SearchResult : Type := mkSearchResult {
  note : Note.t;
  relevance_score : Q;
  matched_chunks : list jsstring
}.

Record Analytics : Type := mkAnalytics {
  total_searches : Z;
  average_response_time : Q;
  search_types : list (jsstring * Z);
  popular_queries : list jsstring
}.

(** What [response.json()] resolves to.  The shape is fixed by the endpoint;
    [NullPayload] is the body [null], and [NoPayload] is a body that cannot
    be read as JSON, for which [json()] rejects.  [fetchAnalytics] stores
    whatever was resolved; for the list and the search a body of another
    shape than the endpoint's is outside the backend's interface and is
    treated like an unreadable one. *)
Inductive Payload : Type :=
| NotesPayload (data : list Note.t)
| SearchPayload (results : list SearchResult)
| AnalyticsPayload (data : Analytics)
| NoPayload
| NullPayload.

(** ToBoolean of the value held in [analytics] (line 302): [null] is falsy,
    an object or an array is truthy.  [NoPayload] is no value and is never
    stored. *)
Definition loaded (data : Payload) : bool :=
  match data with
  | NullPayload | NoPayload => false
  | _ => true
  end.

(** ** Component state: one field per [useState] (lines 7-23) *)

Record State : Type := mkState {
  notes : list Note.t;
  loading : bool;
  isModalOpen : bool;
  editingNote : option Note.t;
  searchQuery : jsstring;
  searchType : jsstring;
  searchResults : list SearchResult;
  isSearching : bool;
  analytics : Payload;
  showAnalytics : bool;
  currentNote : Draft.t
}.

Definition initialState : State :=
  {| notes := []; loading := false; isModalOpen := false;
     editingNote := None; searchQuery := []; searchType := lit "keyword";
     searchResults := []; isSearching := false; analytics := NullPayload;
     showAnalytics := false; currentNote := Draft.default |}.

Definition setNotes (v : list Note.t) (s : State) : State :=
  mkState v (loading s) (isModalOpen s) (editingNote s) (searchQuery s)
    (searchType s) (searchResults s) (isSearching s) (analytics s)
    (showAnalytics s) (currentNote s).
Definition setLoading (v : bool) (s : State) : State :=
  mkState (notes s) v (isModalOpen s) (editingNote s) (searchQuery s)
    (searchType s) (searchResults s) (isSearching s) (analytics s)
    (showAnalytics s) (currentNote s).
Definition setIsModalOpen (v : bool) (s : State) : State :=
  mkState (notes s) (loading s) v (editingNote s) (searchQuery s)
    (searchType s) (searchResults s) (isSearching s) (analytics s)
    (showAnalytics s) (currentNote s).
Definition setEditingNote (v : option Note.t) (s : State) : State :=
  mkState (notes s) (loading s) (isModalOpen s) v (searchQuery s)
    (searchType s) (searchResults s) (isSearching s) (analytics s)
    (showAnalytics s) (currentNote s).
Definition setSearchQuery (v : jsstring) (s : State) : State :=
  mkState (notes s) (loading s) (isModalOpen s) (editingNote s) v
    (searchType s) (searchResults s) (isSearching s) (analytics s)
    (showAnalytics s) (currentNote s).
Definition setSearchType (v : jsstring) (s : State) : State :=
  mkState (notes s) (loading s) (isModalOpen s) (editingNote s)
    (searchQuery s) v (searchResults s) (isSearching s) (analytics s)
    (showAnalytics s) (currentNote s).
Definition setSearchResults (v : list SearchResult) (s : State) : State :=
  mkState (notes s) (loading s) (isModalOpen s) (editingNote s)
    (searchQuery s) (searchType s) v (isSearching s) (analytics s)
    (showAnalytics s) (currentNote s).
Definition setIsSearching (v : bool) (s : State) : State :=
  mkState (notes s) (loading s) (isModalOpen s) (editingNote s)
    (searchQuery s) (searchType s) (searchResults s) v (analytics s)
    (showAnalytics s) (currentNote s).
Definition setAnalytics (v : Payload) (s : State) : State :=
  mkState (notes s) (loading s) (isModalOpen s) (editingNote s)
    (searchQuery s) (searchType s) (searchResults s) (isSearching s) v
    (showAnalytics s) (currentNote s).
Definition setShowAnalytics (v : bool) (s : State) : State :=
  mkState (notes s) (loading s) (isModalOpen s) (editingNote s)
    (searchQuery s) (searchType s) (searchResults s) (isSearching s)
    (analytics s) v (currentNote s).
Definition setCurrentNote (v : Draft.t) (s : State) : State :=
  mkState (notes s) (loading s) (isModalOpen s) (editingNote s)
    (searchQuery s) (searchType s) (searchResults s) (isSearching s)
    (analytics s) (showAnalytics s) v.

(** ** Requests, responses and observable effects *)

Inductive Method : Type := GET | POST | PUT | DELETE.

(** The URLs the component builds, all below [API_BASE_URL] (line 4). *)
Inductive Url : Type :=
| NotesLimit (limit : Z)        (* /notes?limit=50 *)
| AnalyticsSearch (days : Z)    (* /analytics/search?days=7 *)
| SearchUrl                     (* /search *)
| NotesUrl                      (* /notes *)
| NoteUrl (id : Z).             (* /notes/${id} *)

Inductive Json : Type :=
| JString (s : jsstring)
| JBool (b : bool)
| JNumber (z : Z).

(** The argument of [JSON.stringify]: the keys of an object in insertion
    order. *)
Definition JsonObject : Type := list (string * Json).

Definition keys (o : JsonObject) : list string := map fst o.

Fixpoint get (k : string) (o : JsonObject) : option Json :=
  match o with
  | [] => None
  | (k', v) :: r => if String.eqb k k' then Some v else get k r
  end.

Record Request : Type := mkRequest {
  method : Method;
  url : Url;
  headers : list (string * string);
  body : option JsonObject
}.

(** The outcome of one [fetch]: the promise rejects (network failure) or
    resolves to a response with a status code. *)
Inductive FetchResult : Type :=
| Rejected
| Response (status : Z) (payload : Payload).

(** [response.ok]: the status is in the range 200-299. *)
Definition ok (status : Z) : bool := (200 <=? status) && (status <=? 299).

Inductive Effect : Type :=
| Fetch (req : Request)
| Alert (msg : string)
| ConsoleError (msg : string)
| Confirm (msg : string)
| ClipboardWrite (sharedId : Z).

(** ** Handlers as resumptions *)

Inductive Task : Type :=
| Done
| Throw
| Do (f : State -> State) (k : Task)
| Log (e : Effect) (k : Task)
| Await (req : Request) (k : FetchResult -> Task).

Fixpoint seq (t u : Task) : Task :=
  match t with
  | Done => u
  | Throw => Throw
  | Do f k => Do f (seq k u)
  | Log e k => Log e (seq k u)
  | Await req k => Await req (fun r => seq (k r) u)
  end.

(** [try { t } catch (error) { h }] *)
Fixpoint catch (t h : Task) : Task :=
  match t with
  | Done => Done
  | Throw => h
  | Do f k => Do f (catch k h)
  | Log e k => Log e (catch k h)
  | Await req k => Await req (fun r => catch (k r) h)
  end.

Declare Scope task_scope.
Delimit Scope task_scope with task.
Bind Scope task_scope with Task.
Notation "t ;; u" := (seq t u)
  (at level 61, right associativity) : task_scope.
Open Scope task_scope.

Definition set (f : State -> State) : Task := Do f Done.
Definition log (e : Effect) : Task := Log e Done.

(** [await fetch(...)]: a rejected promise is thrown at the [await]. *)
Definition fetch (req : Request) (k : Z -> Payload -> Task) : Task :=
  Await req (fun r =>
    match r with
    | Rejected => Throw
    | Response status payload => k status payload
    end).

Definition json_headers : list (string * string) :=
  [("Content-Type", "application/json")]%string.

(** *** fetchNotes (lines 26-38) *)

Definition fetchNotes_request : Request :=
  mkRequest GET (NotesLimit 50) [] None.

Definition fetchNotes : Task :=
  set (setLoading true) ;;
  catch
    (fetch fetchNotes_request (fun status payload =>
       if ok status then
         match payload with
         | NotesPayload data => set (setNotes data)
         | _ => Throw
         end
       else Done))
    (log (ConsoleError "Failed to fetch notes:")) ;;
  set (setLoading false).

(** *** fetchAnalytics (lines 41-51) *)

Definition fetchAnalytics_request : Request :=
  mkRequest GET (AnalyticsSearch 7) [] None.

Definition fetchAnalytics : Task :=
  catch
    (fetch fetchAnalytics_request (fun status payload =>
       if ok status then
         match payload with
         | NoPayload => Throw
         | data => set (setAnalytics data)
         end
       else Done))
    (log (ConsoleError "Failed to fetch analytics:")).

(** *** handleSearch (lines 58-87) *)

Definition search_body (snap : State) : JsonObject :=
  [("query", JString (searchQuery snap));
   ("search_type", JString (searchType snap));
   ("limit", JNumber 10);
   ("include_content", JBool true)]%string.

Definition search_request (snap : State) : Request :=
  mkRequest POST SearchUrl json_headers (Some (search_body snap)).

Definition handleSearch (snap : State) : Task :=
  if negb (truthy (trim (searchQuery snap))) then
    set (setSearchResults [])
  else
    set (setIsSearching true) ;;
    catch
      (fetch (search_request snap) (fun status payload =>
         if ok status then
           match payload with
           | SearchPayload results => set (setSearchResults results)
           | _ => Throw
           end
         else Done))
      (log (ConsoleError "Search failed:")) ;;
    set (setIsSearching false).

(** *** Modal controls (lines 150-183) *)

Definition openModal (note : option Note.t) : Task :=
  match note with
  | Some n =>
      set (setEditingNote (Some n)) ;;
      set (setCurrentNote (Draft.of_note n))
  | None =>
      set (setEditingNote None) ;;
      set (setCurrentNote Draft.default)
  end ;;
  set (setIsModalOpen true).

Definition closeModal : Task :=
  set (setIsModalOpen false) ;;
  set (setEditingNote None) ;;
  set (setCurrentNote Draft.default).

(** *** saveNote (lines 90-130) *)

(** [JSON.stringify(currentNote)] *)
Definition update_body (d : Draft.t) : JsonObject :=
  [("title", JString (Draft.title d));
   ("content", JString (Draft.content d));
   ("is_public", JBool (Draft.is_public d));
   ("tags", JString (Draft.tags d));
   ("version", JNumber (Draft.version d))]%string.

(** The object literal of lines 111-116. *)
Definition create_body (d : Draft.t) : JsonObject :=
  [("title", JString (Draft.title d));
   ("content", JString (Draft.content d));
   ("is_public", JBool (Draft.is_public d));
   ("tags", JString (Draft.tags d))]%string.

Definition update_request (editing : Note.t) (d : Draft.t) : Request :=
  mkRequest PUT (NoteUrl (Note.id editing)) json_headers
    (Some (update_body d)).

Definition create_request (d : Draft.t) : Request :=
  mkRequest POST NotesUrl json_headers (Some (create_body d)).

Definition save_request (snap : State) : Request :=
  match editingNote snap with
  | Some editing => update_request editing (currentNote snap)
  | None => create_request (currentNote snap)
  end.

Definition validation_message : string :=
  "Please fill in both title and content".
Definition conflict_message : string :=
  "Note was modified by another user. Please refresh and try again.".

Definition saveNote (snap : State) : Task :=
  if negb (truthy (trim (Draft.title (currentNote snap))))
     || negb (truthy (trim (Draft.content (currentNote snap)))) then
    log (Alert validation_message)
  else
    set (setLoading true) ;;
    catch
      (fetch (save_request snap) (fun status _ =>
         if ok status then
           fetchNotes ;; closeModal
         else if status =? 409 then
           log (Alert conflict_message)
         else Done))
      (log (ConsoleError "Failed to save note:")) ;;
    set (setLoading false).

(** *** deleteNote (lines 133-147); [answer] is what [confirm] returns *)

Definition delete_request (id : Z) : Request :=
  mkRequest DELETE (NoteUrl id) [] None.

Definition confirm_message : string :=
  "Are you sure you want to delete this note?".

Definition deleteNote (id : Z) (answer : bool) : Task :=
  log (Confirm confirm_message) ;;
  if negb answer then Done
  else
    catch
      (fetch (delete_request id) (fun status _ =>
         if ok status then fetchNotes else Done))
      (log (ConsoleError "Failed to delete note:")).

(** *** shareNote (lines 186-190) *)

Definition shareNote (noteId : Z) : Task :=
  log (ClipboardWrite noteId) ;;
  log (Alert "Share link copied to clipboard!").

(** *** Draft fields and search controls (lines 229, 258, 265, 536-569) *)

Definition changeTitle (v : jsstring) (snap : State) : Task :=
  set (setCurrentNote (Draft.with_title v (currentNote snap))).
Definition changeTags (v : jsstring) (snap : State) : Task :=
  set (setCurrentNote (Draft.with_tags v (currentNote snap))).
Definition changeContent (v : jsstring) (snap : State) : Task :=
  set (setCurrentNote (Draft.with_content v (currentNote snap))).
Definition changeIsPublic (v : bool) (snap : State) : Task :=
  set (setCurrentNote (Draft.with_is_public v (currentNote snap))).
Definition toggleAnalytics (snap : State) : Task :=
  set (setShowAnalytics (negb (showAnalytics snap))).

(** ** Rendering of the excerpts of a search result (lines 354-366) *)

Definition quote : jsstring := [34%N].
Definition ellipsis : jsstring := lit "...".

(** The text of one excerpt box: ["{chunk.substring(0, 100)}..."]. *)
Definition render_excerpt (chunk : jsstring) : jsstring :=
  quote ++ substring 0 100 chunk ++ ellipsis ++ quote.

(** The excerpt boxes of one result; [None] when the block is not rendered. *)
Definition render_excerpts (result : SearchResult) : option (list jsstring) :=
  if (0 <? List.length (matched_chunks result))%nat then
    Some (map render_excerpt (slice 0 2 (matched_chunks result)))
  else None.


(** ** Running one handler to its end

    [exec t rs s] runs [t] from state [s]; the [n]-th [await] receives the
    [n]-th element of [rs], and the run stops at an [await] for which [rs]
    holds no outcome.  The result is the state reached and the effects in
    the order they happened. *)

Fixpoint exec (t : Task) (rs : list FetchResult) (s : State)
  : State * list Effect :=
  match t with
  | Done | Throw => (s, [])
  | Do f k => exec k rs (f s)
  | Log e k => let (s', es) := exec k rs s in (s', e :: es)
  | Await req k =>
      match rs with
      | [] => (s, [Fetch req])
      | r :: rs' => let (s', es) := exec (k r) rs' s in (s', Fetch req :: es)
      end
  end.

(** ** The event loop

    A handler runs without interruption up to its next [await]; what follows
    the [await] is parked until the response of that request is delivered.
    Requests are numbered in the order in which they are initiated. *)

Inductive Suspension : Type :=
| Finished
| Uncaught
| Waiting (k : FetchResult -> Task).

Fixpoint sync (t : Task) (s : State) : State * list Effect * Suspension :=
  match t with
  | Done => (s, [], Finished)
  | Throw => (s, [], Uncaught)
  | Do f k => sync k (f s)
  | Log e k => let '(s', es, w) := sync k s in (s', e :: es, w)
  | Await req k => (s, [Fetch req], Waiting k)
  end.

Record Config : Type := mkConfig {
  ui : State;
  pending : list (nat * (FetchResult -> Task));
  next : nat;
  trace : list Effect
}.

Definition initialConfig : Config := mkConfig initialState [] 0%nat [].

Definition start (t : Task) (c : Config) : Config :=
  let '(s', es, w) := sync t (ui c) in
  match w with
  | Waiting k =>
      mkConfig s' (pending c ++ [(next c, k)]) (S (next c)) (trace c ++ es)
  | _ => mkConfig s' (pending c) (next c) (trace c ++ es)
  end.

Fixpoint take_pending (id : nat) (p : list (nat * (FetchResult -> Task)))
  : option ((FetchResult -> Task) * list (nat * (FetchResult -> Task))) :=
  match p with
  | [] => None
  | (i, k) :: r =>
      if Nat.eqb i id then Some (k, r)
      else match take_pending id r with
           | Some (k', r') => Some (k', (i, k) :: r')
           | None => None
           end
  end.

Inductive Event : Type :=
| Mount                                   (* useEffect, line 53 *)
| ChangeSearchQuery (v : jsstring)        (* line 258 *)
| PressEnter                              (* line 259 *)
| ChangeSearchType (v : jsstring)         (* line 265 *)
| ClickSearch                             (* lines 272-275 *)
| ClickAnalytics                          (* line 229 *)
| ClickLoadAnalytics                      (* line 323 *)
| ClickNewNote                            (* lines 236, 432 *)
| ClickEdit (n : Note.t)                  (* lines 386, 480 *)
| ClickShare (id : Z)                     (* lines 393, 488 *)
| ClickDelete (id : Z) (answer : bool)    (* lines 400, 496 *)
| ClickClose                              (* lines 520, 591 *)
| ChangeTitle (v : jsstring)              (* line 536 *)
| ChangeTags (v : jsstring)               (* line 547 *)
| ChangeContent (v : jsstring)            (* line 557 *)
| ChangeIsPublic (v : bool)               (* line 569 *)
| ClickSave                               (* lines 596-598 *)
| Respond (id : nat) (r : FetchResult).

(** The handler an event runs on the state of the last render; [None] when
    the control is disabled or not rendered.  Edit, share and delete accept
    any note: the handlers do not depend on where the note is shown. *)
Definition handler (e : Event) (snap : State) : option Task :=
  match e with
  | Mount => Some fetchNotes
  | ChangeSearchQuery v => Some (set (setSearchQuery v))
  | PressEnter => Some (handleSearch snap)
  | ChangeSearchType v => Some (set (setSearchType v))
  | ClickSearch =>
      if isSearching snap then None else Some (handleSearch snap)
  | ClickAnalytics => Some (toggleAnalytics snap)
  | ClickLoadAnalytics =>
      if showAnalytics snap then
        if loaded (analytics snap) then None else Some fetchAnalytics
      else None
  | ClickNewNote => Some (openModal None)
  | ClickEdit n => Some (openModal (Some n))
  | ClickShare id => Some (shareNote id)
  | ClickDelete id answer => Some (deleteNote id answer)
  | ClickClose => if isModalOpen snap then Some closeModal else None
  | ChangeTitle v =>
      if isModalOpen snap then Some (changeTitle v snap) else None
  | ChangeTags v =>
      if isModalOpen snap then Some (changeTags v snap) else None
  | ChangeContent v =>
      if isModalOpen snap then Some (changeContent v snap) else None
  | ChangeIsPublic v =>
      if isModalOpen snap then Some (changeIsPublic v snap) else None
  | ClickSave =>
      if isModalOpen snap && negb (loading snap)
      then Some (saveNote snap) else None
  | Respond _ _ => None
  end.

Definition step (c : Config) (e : Event) : Config :=
  match e with
  | Respond id r =>
      match take_pending id (pending c) with
      | Some (k, rest) =>
          start (k r) (mkConfig (ui c) rest (next c) (trace c))
      | None => c
      end
  | _ =>
      match handler e (ui c) with
      | Some t => start t c
      | None => c
      end
  end.

Definition run (c : Config) (es : list Event) : Config := fold_left step es c.

(** ** Vocabulary of the properties *)

(** The draft passes the check of line 91. *)
Definition valid_draft (d : Draft.t) : bool :=
  negb (blank (Draft.title d)) && negb (blank (Draft.content d)).

(** A search that fails: the promise rejects or the status is not 2xx. *)
Definition failed (r : FetchResult) : bool :=
  match r with
  | Rejected => true
  | Response status _ => negb (ok status)
  end.

(** A transport error: the promise rejects, or the status is neither 2xx nor
    the conflict status. *)
Definition transport_error (r : FetchResult) : bool :=
  match r with
  | Rejected => true
  | Response status _ => negb (ok status) && negb (status =? 409)
  end.

(** What the [catch] block of a handler prints for an outcome. *)
Definition console (r : FetchResult) (msg : string) : list Effect :=
  match r with
  | Rejected => [ConsoleError msg]
  | Response _ _ => []
  end.

(** An effect that tells somebody something. *)
Definition notifies (e : Effect) : bool :=
  match e with
  | Alert _ | ConsoleError _ => true
  | _ => false
  end.


(** *** What the event loop maintains *)

Section Invariant.

(** The notes on which an editing session has been opened. *)
Variable opened : Note.t -> Prop.

(** The requests the handlers build; an update carries the id and the
    version of one and the same opened note. *)
Inductive component_request : Request -> Prop :=
| req_list : component_request fetchNotes_request
| req_analytics : component_request fetchAnalytics_request
| req_search (snap : State) : component_request (search_request snap)
| req_create (d : Draft.t) : component_request (create_request d)
| req_update (n : Note.t) (d : Draft.t) :
    opened n -> Draft.version d = Note.version n ->
    component_request (update_request n d)
| req_delete (id : Z) : component_request (delete_request id).

(** While a note is being edited the draft carries that note's version. *)
Definition pinned (s : State) : Prop :=
  forall n, editingNote s = Some n ->
    opened n /\ Draft.version (currentNote s) = Note.version n.

(** [safe t s]: running [t] from [s] restores [pinned] at every point
    where the task suspends or ends, and sends component requests only,
    whatever the outcomes of its requests and whatever [pinned] state it
    is resumed in. *)
Fixpoint safe (t : Task) (s : State) : Prop :=
  match t with
  | Done | Throw => pinned s
  | Do f k => safe k (f s)
  | Log e k =>
      match e with Fetch req => component_request req | _ => True end
      /\ safe k s
  | Await req k =>
      pinned s /\ component_request req /\
      forall r s', pinned s' -> safe (k r) s'
  end.

Definition invariant (c : Config) : Prop :=
  pinned (ui c) /\
  (forall req, In (Fetch req) (trace c) -> component_request req) /\
  (forall id k, In (id, k) (pending c) ->
     forall r s, pinned s -> safe (k r) s).

End Invariant.

(** The notes passed to [openModal] by the events of a run. *)
Definition opened_in (es : list Event) (n : Note.t) : Prop :=
  In (ClickEdit n) es.

(** Request numbers are handed out in increasing order. *)
Definition fresh (c : Config) : Prop :=
  forall id k, In (id, k) (pending c) -> (id < next c)%nat.

(** ** Concrete inputs *)

Definition note_a : Note.t :=
  Note.mk 1 (lit "Groceries") (lit "milk and eggs") false (lit "home") 3 12
    (lit "2024-05-01T10:00:00Z").

Definition note_b : Note.t :=
  Note.mk 2 (lit "Reading list") (lit "three papers on search") true
    (lit "work") 1 40 (lit "2024-05-02T08:30:00Z").

Definition result_a : SearchResult :=
  mkSearchResult note_a (9 # 10) [lit "milk and eggs"].

Definition result_b : SearchResult :=
  mkSearchResult note_b (7 # 10)
    [lit "three"; lit "papers"; lit "on"; lit "search"; lit "three papers"].

(** An edit session on [note_a], as [openModal(note_a)] leaves it. *)
Definition editing_state : State :=
  fst (exec (openModal (Some note_a)) [] initialState).

(** A create session whose draft has been filled in. *)
Definition creating_state : State :=
  setCurrentNote (Draft.mk (lit "Title") (lit "Body") false (lit "") 1)
    (fst (exec (openModal None) [] initialState)).

(** A create session whose title is white space only. *)
Definition blank_title_state : State :=
  setCurrentNote (Draft.mk (lit "   ") (lit "Body") false (lit "") 1)
    (fst (exec (openModal None) [] initialState)).

(** Two searches started with the Enter key, the second while the first is
    outstanding; the response of the second arrives first. *)
Definition overlapping_searches : list Event :=
  [ChangeSearchQuery (lit "eggs"); PressEnter;
   ChangeSearchQuery (lit "papers"); PressEnter;
   Respond 1 (Response 200 (SearchPayload [result_b]));
   Respond 0 (Response 200 (SearchPayload [result_a]))].

(** An edit session in which the title is changed while the cache is
    refreshed with a newer version of the same note, then saved. *)
Definition edit_and_save : list Event :=
  [Mount; ClickEdit note_a; ChangeTitle (lit "Groceries (week 2)");
   Respond 0 (Response 200 (NotesPayload
     [Note.mk 1 (lit "Groceries") (lit "bread") false (lit "home") 4 13
        (lit "2024-05-03T09:00:00Z")]));
   ClickSave].

Definition edit_and_save_request : Request :=
  update_request note_a
    (Draft.with_title (lit "Groceries (week 2)") (Draft.of_note note_a)).

(** A search box holding a query, with one result already on display. *)
Definition searching_state : State :=
  setSearchResults [result_a] (setSearchQuery (lit "eggs") initialState).

(** ** What is on screen *)

(** The notes grid (lines 414-507): placeholders while the first load is
    running, the invitation to create a note, or one card per cached note. *)
Inductive NotesView : Type :=
| Skeletons (count : nat)
| NoNotesYet
| Cards (shown : list Note.t).

Definition notesGrid (s : State) : NotesView :=
  if loading s && (List.length (notes s) =? 0)%nat then Skeletons 6
  else if (List.length (notes s) =? 0)%nat then NoNotesYet
  else Cards (notes s).

(** The heading of the modal (line 517) and the text of its submit button
    (line 601). *)
Definition modalTitle (s : State) : string :=
  match editingNote s with
  | Some _ => "Edit Note"
  | None => "Create New Note"
  end.

Definition saveLabel (s : State) : string :=
  if loading s then "Saving..."
  else match editingNote s with
       | Some _ => "Update Note"
       | None => "Create Note"
       end.

(** ** Properties of states that the event loop keeps *)

Section Stable.

(** A property of the component state and a property of requests. *)
Variable I : State -> Prop.
Variable G : Request -> Prop.

(** [keeps t s]: run from [s], the task [t] is in a state satisfying [I]
    whenever it suspends or ends, however it is answered and in whatever
    state satisfying [I] it is resumed, and every request it sends
    satisfies [G]. *)
Fixpoint keeps (t : Task) (s : State) : Prop :=
  match t with
  | Done | Throw => I s
  | Do f k => keeps k (f s)
  | Log e k =>
      match e with Fetch req => G req | _ => True end /\ keeps k s
  | Await req k =>
      I s /\ G req /\ forall r s', I s' -> keeps (k r) s'
  end.

(** [resumable t]: whatever [t] parks at an [await], now or after being
    resumed, keeps [I] from every state satisfying [I]. *)
Fixpoint resumable (t : Task) : Prop :=
  match t with
  | Done | Throw => True
  | Do _ k | Log _ k => resumable k
  | Await _ k =>
      forall r, resumable (k r) /\ forall s', I s' -> keeps (k r) s'
  end.

Definition parked (c : Config) : Prop :=
  forall id k, In (id, k) (pending c) ->
    forall r, resumable (k r) /\ forall s, I s -> keeps (k r) s.

Definition sent (c : Config) : Prop :=
  forall req, In (Fetch req) (trace c) -> G req.

End Stable.

(** The session is reset whenever the modal is closed. *)
Definition closed_is_reset (s : State) : Prop :=
  isModalOpen s = false ->
  editingNote s = None /\ currentNote s = Draft.default.

(** A request that passed the check of its handler: a search carries a
    query, a save carries a title and a content, that are not blank. *)
Definition checked_request (req : Request) : Prop :=
  match url req, method req with
  | SearchUrl, _ =>
      exists q o, body req = Some o /\ get "query" o = Some (JString q) /\
                  blank q = false
  | NotesUrl, _ | NoteUrl _, PUT =>
      exists t c o, body req = Some o /\
        get "title" o = Some (JString t) /\
        get "content" o = Some (JString c) /\
        blank t = false /\ blank c = false
  | _, _ => True
  end.

Arguments checked_request : simpl never.

(** The events that are not edits of the search box. *)
Definition leaves_search_box (e : Event) : Prop :=
  match e with
  | ChangeSearchQuery _ | ChangeSearchType _ => False
  | _ => True
  end.

(** The search box holds the query [q] and the mode [ty]. *)
Definition search_box (q ty : jsstring) (s : State) : Prop :=
  searchQuery s = q /\ searchType s = ty.

(** The analytics hold the value [data]. *)
Definition analytics_are (data : Payload) (s : State) : Prop :=
  analytics s = data.

Definition any_request (req : Request) : Prop := True.
Definition any_state (s : State) : Prop := True.
Definition any_event (e : Event) : Prop := True.

(** More concrete inputs *)

Definition analytics_a : Analytics :=
  mkAnalytics 12 (3 # 10) [(lit "keyword", 7); (lit "semantic", 5)]
    [lit "eggs"; lit "papers"].

(** The analytics panel is opened and the analytics are loaded. *)
Definition load_analytics : list Event :=
  [ClickAnalytics; ClickLoadAnalytics;
   Respond 0 (Response 200 (AnalyticsPayload analytics_a))].

(** The Load button is clicked twice before an answer has arrived; the
    second answer is the body [null]. *)
Definition load_analytics_twice : list Event :=
  [ClickAnalytics; ClickLoadAnalytics; ClickLoadAnalytics;
   Respond 0 (Response 200 (AnalyticsPayload analytics_a));
   Respond 1 (Response 200 NullPayload)].

(** An edit session that is opened, changed and cancelled. *)
Definition edit_and_cancel : list Event :=
  [ClickEdit note_a; ChangeTitle (lit "Groceries (week 2)"); ClickClose].

(** A search for "eggs" and its answer, then unrelated activity. *)
Definition search_then_browse : list Event :=
  [PressEnter; Respond 0 (Response 200 (SearchPayload [result_a]));
   ClickEdit note_a; ClickClose; ClickSearch].

(** * Properties *)

(** ** Facts about [trim] *)

Lemma trimStart_blank (s : jsstring) :
  blank s = true -> trimStart s = [].
Proof.
  induction s as [|c r IH]; simpl; [reflexivity|].
  destruct (isWhiteSpace c); simpl; [exact IH | discriminate].
Qed.

Lemma trimStart_not_blank (s : jsstring) :
  blank s = false -> truthy (trimStart s) = true.
Proof.
  induction s as [|c r IH]; simpl; [discriminate|].
  destruct (isWhiteSpace c) eqn:E; simpl; [exact IH | reflexivity].
Qed.

Lemma blank_app (s u : jsstring) : blank (s ++ u) = blank s && blank u.
Proof. apply forallb_app. Qed.

Lemma blank_rev (s : jsstring) : blank (rev s) = blank s.
Proof.
  induction s as [|c r IH]; simpl; [reflexivity|].
  rewrite blank_app, IH. simpl. rewrite andb_true_r. apply andb_comm.
Qed.

Lemma blank_trimStart (s : jsstring) : blank (trimStart s) = blank s.
Proof.
  induction s as [|c r IH]; simpl; [reflexivity|].
  destruct (isWhiteSpace c) eqn:E; simpl; [exact IH | now rewrite E].
Qed.

Lemma truthy_rev (s : jsstring) : truthy (rev s) = truthy s.
Proof.
  destruct s as [|c r]; simpl; [reflexivity|].
  destruct (rev r); reflexivity.
Qed.

(** [!s.trim()] holds exactly for the strings made of white space only. *)
Lemma truthy_trim (s : jsstring) : truthy (trim s) = negb (blank s).
Proof.
  unfold trim, trimEnd. rewrite truthy_rev.
  destruct (blank s) eqn:E; simpl.
  - now rewrite (trimStart_blank s E).
  - apply trimStart_not_blank. now rewrite blank_rev, blank_trimStart.
Qed.

Lemma trim_empty_iff (s : jsstring) : trim s = [] <-> blank s = true.
Proof.
  pose proof (truthy_trim s) as H.
  destruct (trim s), (blank s); simpl in H; split; intro;
    congruence.
Qed.

(** ** The two branches of the guarded handlers *)

Lemma saveNote_valid (s : State) :
  valid_draft (currentNote s) = true ->
  saveNote s =
    (set (setLoading true) ;;
     catch
       (fetch (save_request s) (fun status _ =>
          if ok status then fetchNotes ;; closeModal
          else if status =? 409 then log (Alert conflict_message)
          else Done))
       (log (ConsoleError "Failed to save note:")) ;;
     set (setLoading false)).
Proof.
  unfold valid_draft, saveNote. intro H.
  rewrite !truthy_trim, !negb_involutive.
  apply andb_true_iff in H as [Ht Hc].
  apply negb_true_iff in Ht, Hc. now rewrite Ht, Hc.
Qed.

Lemma saveNote_invalid (s : State) :
  valid_draft (currentNote s) = false ->
  saveNote s = log (Alert validation_message).
Proof.
  unfold valid_draft, saveNote. intro H.
  rewrite !truthy_trim, !negb_involutive.
  apply andb_false_iff in H as [H|H]; apply negb_false_iff in H;
    rewrite H; [reflexivity | now rewrite orb_true_r].
Qed.

Lemma handleSearch_nonblank (s : State) :
  blank (searchQuery s) = false ->
  handleSearch s =
    (set (setIsSearching true) ;;
     catch
       (fetch (search_request s) (fun status payload =>
          if ok status then
            match payload with
            | SearchPayload results => set (setSearchResults results)
            | _ => Throw
            end
          else Done))
       (log (ConsoleError "Search failed:")) ;;
     set (setIsSearching false)).
Proof.
  unfold handleSearch. intro H. now rewrite truthy_trim, H.
Qed.

Lemma handleSearch_blank (s : State) :
  blank (searchQuery s) = true ->
  handleSearch s = set (setSearchResults []).
Proof.
  unfold handleSearch. intro H. now rewrite truthy_trim, H.
Qed.

(** ** The two readings of a task agree *)

(** Running a task to its end is running it up to its first [await] and
    resuming what was parked there with the first outcome. *)
Lemma exec_sync (t : Task) :
  forall (rs : list FetchResult) (s : State),
    exec t rs s =
      let '(s', es, w) := sync t s in
      match w, rs with
      | Waiting k, r :: rs' =>
          let (s'', es') := exec (k r) rs' s' in (s'', es ++ es')
      | _, _ => (s', es)
      end.
Proof.
  induction t as [| |f k IH|e k IH|req k IH]; intros rs s; simpl.
  - reflexivity.
  - reflexivity.
  - apply IH.
  - rewrite IH. destruct (sync k s) as [[s' es] w].
    destruct w as [| |k']; try reflexivity.
    destruct rs as [|r rs']; [reflexivity|].
    now destruct (exec (k' r) rs' s').
  - destruct rs as [|r rs']; [reflexivity|].
    now destruct (exec (k r) rs' s).
Qed.

(** ** The editing session *)

(** C1: when the server answers an update with status 409, [saveNote] shows
    the conflict notice and goes back to the open editing session: the modal
    stays open, [editingNote] and [currentNote] are what they were, and the
    cache is neither fetched again nor changed. *)
Theorem saveNote_conflict_preserves_draft :
  forall (s : State) (editing : Note.t) (p : Payload)
         (rs : list FetchResult),
    editingNote s = Some editing ->
    valid_draft (currentNote s) = true ->
    let out := exec (saveNote s) (Response 409 p :: rs) s in
    snd out =
      [Fetch (update_request editing (currentNote s));
       Alert conflict_message] /\
    fst out = setLoading false s /\
    isModalOpen (fst out) = isModalOpen s /\
    editingNote (fst out) = editingNote s /\
    currentNote (fst out) = currentNote s /\
    notes (fst out) = notes s.
Proof.
  intros s editing p rs He Hv out. subst out.
  assert (Hr : save_request s = update_request editing (currentNote s))
    by (unfold save_request; now rewrite He).
  rewrite (saveNote_valid s Hv), Hr. simpl. repeat split; reflexivity.
Qed.

(** C2: a draft whose title or content is empty or made of white space only
    is rejected before any request: [saveNote] shows the validation message,
    sends nothing however many responses are on offer, and leaves the whole
    state (modal, draft, [editingNote]) as it was. *)
Theorem saveNote_blank_draft_sends_nothing :
  forall (s : State) (rs : list FetchResult),
    blank (Draft.title (currentNote s)) = true \/
    blank (Draft.content (currentNote s)) = true ->
    exec (saveNote s) rs s = (s, [Alert validation_message]) /\
    sync (saveNote s) s = (s, [Alert validation_message], Finished).
Proof.
  intros s rs H.
  assert (Hv : valid_draft (currentNote s) = false).
  { unfold valid_draft. destruct H as [H|H]; rewrite H; simpl;
      [reflexivity | apply andb_false_r]. }
  rewrite (saveNote_invalid s Hv). split; reflexivity.
Qed.

(** C10: [closeModal] resets the editing session ([editingNote] is null, the
    draft is the all-default object, the modal is closed); it is what the
    Cancel and Close buttons run and what a successful save ends with; and a
    Create session opened from any state starts from the same defaults. *)
Theorem closeModal_resets_session :
  forall (s : State) (rs : list FetchResult),
    let closed := fst (exec closeModal rs s) in
    (isModalOpen closed = false /\
     editingNote closed = None /\
     currentNote closed = Draft.default) /\
    (isModalOpen s = true -> handler ClickClose s = Some closeModal) /\
    (forall (status : Z) (p : Payload) (r2 : FetchResult),
        valid_draft (currentNote s) = true -> ok status = true ->
        let saved :=
          fst (exec (saveNote s) (Response status p :: r2 :: rs) s) in
        isModalOpen saved = false /\
        editingNote saved = None /\
        currentNote saved = Draft.default) /\
    (forall (s' : State) (rs' : list FetchResult),
        let opened := fst (exec (openModal None) rs' s') in
        isModalOpen opened = true /\
        editingNote opened = None /\
        currentNote opened = Draft.default).
Proof.
  intros s rs closed. subst closed.
  split; [simpl; repeat split; reflexivity|].
  split; [intro Ho; simpl; now rewrite Ho|].
  split; [|intros s' rs'; simpl; repeat split; reflexivity].
  intros status p r2 Hv Hok saved. subst saved.
  rewrite (saveNote_valid s Hv). simpl. rewrite Hok.
  destruct r2 as [|status2 [data|results|data| |]]; simpl;
    try destruct (ok status2); simpl; repeat split; reflexivity.
Qed.

(** X11: the same under interleaving: what [saveNote] parks at its [await],
    resumed with a conflict in whatever state the component has reached by
    then, shows the notice and resets the busy flag only, so edits made
    while the request was outstanding are kept as well. *)
Lemma saveNote_conflict_resumption (s : State) :
  valid_draft (currentNote s) = true ->
  exists k,
    sync (saveNote s) s =
      (setLoading true s, [Fetch (save_request s)], Waiting k) /\
    forall (p : Payload) (s' : State),
      sync (k (Response 409 p)) s' =
        (setLoading false s', [Alert conflict_message], Finished).
Proof.
  intro Hv. rewrite (saveNote_valid s Hv). eexists.
  split; reflexivity.
Qed.

(** ** Search *)

(** C5: for an empty or white-space-only query [handleSearch] sets the
    displayed results to the empty sequence and finishes without sending a
    request, whatever responses are on offer. *)
Theorem handleSearch_blank_query_short_circuits :
  forall (s : State) (rs : list FetchResult),
    blank (searchQuery s) = true ->
    exec (handleSearch s) rs s = (setSearchResults [] s, []) /\
    sync (handleSearch s) s = (setSearchResults [] s, [], Finished) /\
    searchResults (fst (exec (handleSearch s) rs s)) = [].
Proof.
  intros s rs H. rewrite (handleSearch_blank s H).
  repeat split; reflexivity.
Qed.

(** C9: a search on a non-blank query that fails leaves the displayed
    results as they were; only [isSearching] is reset. *)
Theorem handleSearch_failure_keeps_results :
  forall (s : State) (r : FetchResult) (rs : list FetchResult),
    blank (searchQuery s) = false ->
    failed r = true ->
    fst (exec (handleSearch s) (r :: rs) s) = setIsSearching false s /\
    searchResults (fst (exec (handleSearch s) (r :: rs) s)) =
      searchResults s.
Proof.
  intros s r rs Hq Hf. rewrite (handleSearch_nonblank s Hq).
  destruct r as [|status payload]; simpl in *.
  - split; reflexivity.
  - apply negb_true_iff in Hf. rewrite Hf. simpl. split; reflexivity.
Qed.

(** The same under interleaving: the parked part of [handleSearch], resumed
    with a failure in any later state, touches [isSearching] only. *)
Lemma handleSearch_failure_resumption (s : State) :
  blank (searchQuery s) = false ->
  exists k,
    sync (handleSearch s) s =
      (setIsSearching true s, [Fetch (search_request s)], Waiting k) /\
    forall (r : FetchResult) (s' : State),
      failed r = true ->
      sync (k r) s' =
        (setIsSearching false s', console r "Search failed:", Finished).
Proof.
  intro Hq. rewrite (handleSearch_nonblank s Hq). eexists.
  split; [reflexivity|].
  intros [|status p] s' Hf; simpl in *; [reflexivity|].
  apply negb_true_iff in Hf. now rewrite Hf.
Qed.

Lemma substring_0 (n : nat) (s : jsstring) : substring 0 n s = firstn n s.
Proof.
  unfold substring. rewrite Nat.max_0_l, Nat.min_0_l, Nat.sub_0_r.
  reflexivity.
Qed.

(** C7: of a result with at least two matched chunks exactly the first two
    are rendered, each cut to its first 100 code units with the ellipsis
    appended inside the quotation marks; the other chunks are not shown. *)
Theorem render_excerpts_first_two :
  forall (result : SearchResult) (c1 c2 : jsstring) (others : list jsstring),
    matched_chunks result = c1 :: c2 :: others ->
    render_excerpts result =
      Some [quote ++ firstn 100 c1 ++ ellipsis ++ quote;
            quote ++ firstn 100 c2 ++ ellipsis ++ quote] /\
    List.length (firstn 100 c1) = Nat.min 100 (List.length c1) /\
    List.length (firstn 100 c2) = Nat.min 100 (List.length c2).
Proof.
  intros result c1 c2 others H. unfold render_excerpts. rewrite H.
  split; [|split; apply length_firstn].
  cbn [List.length Nat.ltb Nat.leb slice firstn skipn map].
  unfold render_excerpt. now rewrite !substring_0.
Qed.

(** ** Mutations and the cache *)

(** C4: after a successful create, update or delete the handler fetches the
    list again, and the cache is what that fetch delivers (the previous
    cache when the fetch itself fails); the response of the mutation never
    enters the cache. *)
Theorem mutation_success_refreshes_cache :
  forall (s : State) (status : Z) (p : Payload) (r2 : FetchResult)
         (rs : list FetchResult),
    ok status = true ->
    (valid_draft (currentNote s) = true ->
     let out := exec (saveNote s) (Response status p :: r2 :: rs) s in
     (exists rest,
         snd out = Fetch (save_request s) :: Fetch fetchNotes_request :: rest)
     /\ notes (fst out) =
          match r2 with
          | Response status2 (NotesPayload data) =>
              if ok status2 then data else notes s
          | _ => notes s
          end) /\
    (forall id : Z,
     let out := exec (deleteNote id true) (Response status p :: r2 :: rs) s in
     (exists rest,
         snd out = Confirm confirm_message :: Fetch (delete_request id)
                     :: Fetch fetchNotes_request :: rest)
     /\ notes (fst out) =
          match r2 with
          | Response status2 (NotesPayload data) =>
              if ok status2 then data else notes s
          | _ => notes s
          end).
Proof.
  intros s status p r2 rs Hok. split.
  - intros Hv out. subst out. rewrite (saveNote_valid s Hv).
    simpl. rewrite Hok.
    destruct r2 as [|status2 [data|results|data| |]]; simpl;
      try destruct (ok status2); simpl; split; eauto.
  - intros id out. subst out. simpl. rewrite Hok.
    destruct r2 as [|status2 [data|results|data| |]]; simpl;
      try destruct (ok status2); simpl; split; eauto.
Qed.

(** C6, as the code has it: on a transport error every operation sends its
    one request and nothing more, prints to the console only when the
    promise was rejected, shows no dialog, and leaves cache, displayed
    results and editing session as they were (the busy flag is reset). *)
Theorem transport_error_abandons_silently :
  forall (s : State) (r : FetchResult) (rs : list FetchResult),
    transport_error r = true ->
    exec fetchNotes (r :: rs) s =
      (setLoading false s,
       Fetch fetchNotes_request :: console r "Failed to fetch notes:") /\
    (valid_draft (currentNote s) = true ->
     exec (saveNote s) (r :: rs) s =
       (setLoading false s,
        Fetch (save_request s) :: console r "Failed to save note:")) /\
    (forall id : Z,
     exec (deleteNote id true) (r :: rs) s =
       (s, Confirm confirm_message :: Fetch (delete_request id)
             :: console r "Failed to delete note:")) /\
    (blank (searchQuery s) = false ->
     exec (handleSearch s) (r :: rs) s =
       (setIsSearching false s,
        Fetch (search_request s) :: console r "Search failed:")).
Proof.
  intros s r rs Hr.
  assert (Hcase : r = Rejected \/
                  exists status p, r = Response status p /\
                    ok status = false /\ (status =? 409) = false).
  { destruct r as [|status p]; [now left|right]. simpl in Hr.
    apply andb_true_iff in Hr as [H1 H2].
    apply negb_true_iff in H1, H2. eauto. }
  repeat split.
  - destruct Hcase as [->|(status & p & -> & Hok & _)]; simpl;
      [|rewrite Hok]; reflexivity.
  - intro Hv. rewrite (saveNote_valid s Hv).
    destruct Hcase as [->|(status & p & -> & Hok & Hc)]; simpl;
      [|rewrite Hok, Hc]; reflexivity.
  - intro id.
    destruct Hcase as [->|(status & p & -> & Hok & _)]; simpl;
      [|rewrite Hok]; reflexivity.
  - intro Hq. rewrite (handleSearch_nonblank s Hq).
    destruct Hcase as [->|(status & p & -> & Hok & _)]; simpl;
      [|rewrite Hok]; reflexivity.
Qed.

Section InvariantFacts.

Variable opened : Note.t -> Prop.

Lemma sync_safe (t : Task) :
  forall s, safe opened t s ->
    pinned opened (fst (fst (sync t s))) /\
    (forall req, In (Fetch req) (snd (fst (sync t s))) ->
       component_request opened req) /\
    match snd (sync t s) with
    | Waiting k => forall r s', pinned opened s' -> safe opened (k r) s'
    | _ => True
    end.
Proof.
  induction t as [| |f k IH|e k IH|req k IH]; intros s Hs; simpl in *.
  - split; [exact Hs | split; [intros req [] | exact I]].
  - split; [exact Hs | split; [intros req [] | exact I]].
  - apply IH, Hs.
  - destruct Hs as [He Hk]. specialize (IH s Hk).
    destruct (sync k s) as [[s' es] w]. simpl in *.
    destruct IH as (H1 & H2 & H3).
    split; [exact H1 | split; [|exact H3]].
    intros req [Heq|Hin]; [subst e; exact He | now apply H2].
  - destruct Hs as (H1 & H2 & H3).
    split; [exact H1 | split; [|exact H3]].
    intros req' [Heq|[]]. now inversion Heq; subst.
Qed.

Ltac pin :=
  unfold pinned in *; simpl in *; intros; try discriminate; auto.

Ltac crunch :=
  repeat (cbn; match goal with
    | |- _ /\ _ => split
    | |- True => exact I
    | |- forall _, _ => intro
    | |- context [match ?r with Rejected => _ | Response _ _ => _ end] =>
        destruct r
    | |- context [if ok ?st then _ else _] => destruct (ok st)
    | |- context [if (?st =? 409) then _ else _] => destruct (st =? 409)
    | |- context [match ?p with NotesPayload _ => _ | _ => _ end] =>
        destruct p
    | |- component_request _ _ => constructor
    | |- pinned _ _ => solve [pin]
    end).

Lemma safe_fetchNotes (s : State) :
  pinned opened s -> safe opened fetchNotes s.
Proof. intro H. crunch. Qed.

Lemma safe_fetchAnalytics (s : State) :
  pinned opened s -> safe opened fetchAnalytics s.
Proof. intro H. crunch. Qed.

Lemma safe_handleSearch (snap : State) :
  pinned opened snap -> safe opened (handleSearch snap) snap.
Proof.
  intro H. unfold handleSearch.
  destruct (negb (truthy (trim (searchQuery snap)))); crunch.
Qed.

Lemma safe_saveNote (snap : State) :
  pinned opened snap -> safe opened (saveNote snap) snap.
Proof.
  intro H. unfold saveNote.
  destruct (negb (truthy (trim (Draft.title (currentNote snap))))
            || negb (truthy (trim (Draft.content (currentNote snap)))));
    [crunch|].
  assert (Hreq : component_request opened (save_request snap)).
  { unfold save_request. destruct (editingNote snap) as [n|] eqn:E;
      [|constructor].
    destruct (H n E) as [Ho Hv]. now constructor. }
  crunch; assumption.
Qed.

Lemma safe_deleteNote (id : Z) (answer : bool) (s : State) :
  pinned opened s -> safe opened (deleteNote id answer) s.
Proof. intro H. destruct answer; crunch. Qed.

Lemma safe_handler (e : Event) (snap : State) (t : Task) :
  pinned opened snap ->
  (forall n, e = ClickEdit n -> opened n) ->
  handler e snap = Some t ->
  safe opened t snap.
Proof.
  intros H Ho Ht. destruct e; simpl in Ht;
    repeat match type of Ht with
      | (if ?b then _ else _) = _ => destruct b
      | match ?a with Some _ => _ | None => _ end = _ => destruct a
      end;
    inversion Ht; subst; clear Ht;
    try (now apply safe_fetchNotes);
    try (now apply safe_fetchAnalytics);
    try (now apply safe_handleSearch);
    try (now apply safe_saveNote);
    try (now apply safe_deleteNote);
    try solve [crunch].
  cbn. intros m Hm. simpl in Hm. injection Hm as <-.
  split; [now apply Ho | reflexivity].
Qed.

Lemma start_invariant (t : Task) (c : Config) :
  invariant opened c -> safe opened t (ui c) ->
  invariant opened (start t c).
Proof.
  intros (Hp & Ht & Hk) Hs. unfold start.
  pose proof (sync_safe t (ui c) Hs) as (H1 & H2 & H3).
  destruct (sync t (ui c)) as [[s' es] w]. simpl in *.
  assert (Htr : forall req, In (Fetch req) (trace c ++ es) ->
                  component_request opened req).
  { intros req Hin. apply in_app_or in Hin as [Hin|Hin]; auto. }
  destruct w as [| |k]; (split; [exact H1 | split; [exact Htr|]]);
    simpl; try exact Hk.
  intros id k' Hin. apply in_app_or in Hin as [Hin|[Heq|[]]].
  - now apply (Hk id).
  - inversion Heq; subst. exact H3.
Qed.

Lemma take_pending_In (id : nat) :
  forall p k rest,
    take_pending id p = Some (k, rest) ->
    In (id, k) p /\ forall x, In x rest -> In x p.
Proof.
  induction p as [|[i k0] p IH]; intros k rest H; simpl in H;
    [discriminate|].
  destruct (Nat.eqb i id) eqn:E.
  - apply Nat.eqb_eq in E. inversion H; subst.
    split; [now left | intros x Hx; now right].
  - destruct (take_pending id p) as [[k' r']|]; [|discriminate].
    inversion H; subst. destruct (IH k r' eq_refl) as [H1 H2].
    split; [now right|]. intros x [Hx|Hx]; [now left | right; auto].
Qed.

Lemma step_invariant (c : Config) (e : Event) :
  invariant opened c ->
  (forall n, e = ClickEdit n -> opened n) ->
  invariant opened (step c e).
Proof.
  intros Hc Ho.
  assert (Hgen : forall t, handler e (ui c) = Some t ->
                   invariant opened (start t c)).
  { intros t Ht. apply start_invariant; [exact Hc|].
    destruct Hc as (Hp & _). now apply (safe_handler e). }
  destruct e; unfold step;
    try (destruct (handler _ (ui c)) eqn:Eh; [now apply Hgen | exact Hc]).
  destruct (take_pending id (pending c)) as [[k rest]|] eqn:Et;
    [|exact Hc].
  apply take_pending_In in Et as [Hin Hrest].
  destruct Hc as (Hp & Ht & Hk).
  apply start_invariant.
  - split; [exact Hp | split; [exact Ht|]]. simpl.
    intros id' k' Hin'. apply (Hk id'). now apply Hrest.
  - simpl. now apply (Hk id k Hin).
Qed.

End InvariantFacts.

Lemma run_snoc (c : Config) (es : list Event) (e : Event) :
  run c (es ++ [e]) = step (run c es) e.
Proof. unfold run. now rewrite fold_left_app. Qed.

Lemma run_invariant (total : list Event) :
  forall pre post,
    total = pre ++ post ->
    invariant (opened_in total) (run initialConfig pre).
Proof.
  induction pre as [|e pre IH] using rev_ind; intros post Heq.
  - split; [|split]; simpl; [intros n Hn; discriminate | tauto | tauto].
  - rewrite run_snoc. apply step_invariant.
    + apply (IH (e :: post)). now rewrite Heq, <- app_assoc.
    + intros n ->. unfold opened_in. rewrite Heq.
      apply in_or_app. left. apply in_or_app. right. now left.
Qed.

Lemma component_request_shape (opened : Note.t -> Prop) (req : Request) :
  component_request opened req ->
  (forall o, body req = Some o -> ~ In "view_count"%string (keys o)) /\
  (method req = POST -> url req = NotesUrl ->
   exists o, body req = Some o /\
     keys o = ["title"; "content"; "is_public"; "tags"]%string) /\
  (method req = PUT ->
   exists n o, opened n /\ url req = NoteUrl (Note.id n) /\
     body req = Some o /\
     keys o = ["title"; "content"; "is_public"; "tags"; "version"]%string /\
     get "version" o = Some (JNumber (Note.version n))).
Proof.
  intros [ | |snap|d|n d Ho Hv|id]; simpl;
    (split; [|split]); try discriminate;
    try (intros o Ho'; inversion Ho'; subst; simpl; intuition discriminate).
  - intros _ _. eexists. split; reflexivity.
  - intros _. exists n. eexists. rewrite <- Hv.
    repeat split; try reflexivity; assumption.
Qed.

(** C8: whatever the user does and however the responses arrive, no request
    body has a [view_count] key; the body of a create request has exactly
    the keys title, content, is_public and tags; and an update request
    carries the id and the version of one note snapshot that was passed to
    [openModal], with exactly the five keys of the draft. *)
Theorem requests_never_carry_view_count :
  forall (es : list Event) (req : Request),
    In (Fetch req) (trace (run initialConfig es)) ->
    (forall o, body req = Some o -> ~ In "view_count"%string (keys o)) /\
    (method req = POST -> url req = NotesUrl ->
     exists o, body req = Some o /\
       keys o = ["title"; "content"; "is_public"; "tags"]%string) /\
    (method req = PUT ->
     exists n o, In (ClickEdit n) es /\ url req = NoteUrl (Note.id n) /\
       body req = Some o /\
       keys o =
         ["title"; "content"; "is_public"; "tags"; "version"]%string /\
       get "version" o = Some (JNumber (Note.version n))).
Proof.
  intros es req Hin.
  destruct (run_invariant es es [] (eq_sym (app_nil_r es))) as (_ & Ht & _).
  exact (component_request_shape (opened_in es) req (Ht req Hin)).
Qed.

(** X9: in every reachable state the draft of an edit session still has the
    version of the snapshot the session was opened on. *)
Lemma draft_version_pinned (es : list Event) (n : Note.t) :
  editingNote (ui (run initialConfig es)) = Some n ->
  In (ClickEdit n) es /\
  Draft.version (currentNote (ui (run initialConfig es))) = Note.version n.
Proof.
  destruct (run_invariant es es [] (eq_sym (app_nil_r es))) as (Hp & _).
  apply Hp.
Qed.

(** ** Overlapping searches *)

Lemma step_fresh (c : Config) (e : Event) : fresh c -> fresh (step c e).
Proof.
  assert (Hstart : forall t c', fresh c' -> fresh (start t c')).
  { intros t c' Hc. unfold start, fresh.
    destruct (sync t (ui c')) as [[s' es] w].
    destruct w as [| |k]; simpl; try exact Hc.
    intros id k' Hin. apply in_app_or in Hin as [Hin|[Heq|[]]].
    - apply Hc in Hin. lia.
    - inversion Heq; subst. lia. }
  intro Hc. destruct e; unfold step;
    try (destruct (handler _ (ui c)); [now apply Hstart | exact Hc]).
  destruct (take_pending id (pending c)) as [[k rest]|] eqn:Et; [|exact Hc].
  apply take_pending_In in Et as [_ Hrest]. apply Hstart.
  intros id' k' Hin. apply (Hc id' k'). now apply Hrest.
Qed.

Lemma run_fresh (es : list Event) : fresh (run initialConfig es).
Proof.
  induction es as [|e es IH] using rev_ind.
  - intros id k [].
  - rewrite run_snoc. now apply step_fresh.
Qed.

Lemma take_pending_app (id : nat) (k : FetchResult -> Task) :
  forall p q,
    (forall i k', In (i, k') p -> i <> id) ->
    take_pending id (p ++ (id, k) :: q) = Some (k, p ++ q).
Proof.
  induction p as [|[i k0] p IH]; intros q Hp; simpl.
  - now rewrite Nat.eqb_refl.
  - destruct (Nat.eqb i id) eqn:E.
    + apply Nat.eqb_eq in E. exfalso. apply (Hp i k0); [now left | exact E].
    + rewrite IH; [reflexivity|]. intros i' k' Hin. apply (Hp i' k').
      now right.
Qed.

Lemma step_PressEnter (c : Config) :
  blank (searchQuery (ui c)) = false ->
  exists k,
    step c PressEnter =
      mkConfig (setIsSearching true (ui c)) (pending c ++ [(next c, k)])
        (S (next c)) (trace c ++ [Fetch (search_request (ui c))]) /\
    forall status results s,
      ok status = true ->
      sync (k (Response status (SearchPayload results))) s =
        (setIsSearching false (setSearchResults results s), [], Finished).
Proof.
  intro H. unfold step, handler. rewrite (handleSearch_nonblank _ H).
  eexists. split; [reflexivity|].
  intros status results s Hok. simpl. now rewrite Hok.
Qed.

Lemma step_Respond (c : Config) (id : nat) (r : FetchResult)
      (k : FetchResult -> Task) (rest : list (nat * (FetchResult -> Task)))
      (s' : State) :
  take_pending id (pending c) = Some (k, rest) ->
  sync (k r) (ui c) = (s', [], Finished) ->
  step c (Respond id r) = mkConfig s' rest (next c) (trace c ++ []).
Proof.
  intros Ht Hs. unfold step. rewrite Ht. unfold start. simpl.
  now rewrite Hs.
Qed.

Lemma respond_search (c : Config) (id : nat) (k : FetchResult -> Task)
      (rest : list (nat * (FetchResult -> Task))) (status : Z)
      (results : list SearchResult) :
  take_pending id (pending c) = Some (k, rest) ->
  (forall s,
      sync (k (Response status (SearchPayload results))) s =
        (setIsSearching false (setSearchResults results s), [], Finished)) ->
  searchResults
    (ui (step c (Respond id (Response status (SearchPayload results))))) =
    results /\
  pending (step c (Respond id (Response status (SearchPayload results)))) =
    rest.
Proof.
  intros Ht Hk. rewrite (step_Respond c id _ k rest _ Ht (Hk (ui c))).
  split; reflexivity.
Qed.

(** The Search button is disabled while a search is outstanding; the Enter
    key is not. *)
Lemma ClickSearch_disabled_while_searching (c : Config) :
  isSearching (ui c) = true ->
  step c ClickSearch = c /\ handler PressEnter (ui c) <> None.
Proof.
  intro H. unfold step, handler. rewrite H. split; [reflexivity|discriminate].
Qed.

(** The defect behind C3 in general: the handler keeps no generation
    counter, and the Enter key starts a search while another is
    outstanding.  Of two such searches answered with a readable 2xx body,
    the one answered last is the one left on display, whether it was
    initiated first or last. *)
Theorem search_last_completion_wins :
  forall (es : list Event) (q1 q2 : jsstring) (status1 status2 : Z)
         (results1 results2 : list SearchResult),
    blank q1 = false -> blank q2 = false ->
    ok status1 = true -> ok status2 = true ->
    let c := run initialConfig es in
    let started :=
      run c [ChangeSearchQuery q1; PressEnter;
             ChangeSearchQuery q2; PressEnter] in
    let older :=
      Respond (next c) (Response status1 (SearchPayload results1)) in
    let newer :=
      Respond (S (next c)) (Response status2 (SearchPayload results2)) in
    searchResults (ui (run started [older; newer])) = results2 /\
    searchResults (ui (run started [newer; older])) = results1.
Proof.
  intros es q1 q2 status1 status2 results1 results2 Hq1 Hq2 Hok1 Hok2
         c started older newer.
  assert (Hfresh : fresh c) by apply run_fresh.
  assert (Hne : forall i k, In (i, k) (pending c) -> i <> next c).
  { intros i k Hin. apply Hfresh in Hin. lia. }
  assert (Hne' : forall i k, In (i, k) (pending c) -> i <> S (next c)).
  { intros i k Hin. apply Hfresh in Hin. lia. }
  subst started older newer. unfold run. cbn [fold_left].
  set (c1 := step c (ChangeSearchQuery q1)).
  destruct (step_PressEnter c1 Hq1) as (k1 & E1 & K1). rewrite E1.
  set (c2 := mkConfig _ _ _ _) in *.
  set (c3 := step c2 (ChangeSearchQuery q2)).
  destruct (step_PressEnter c3 Hq2) as (k2 & E2 & K2). rewrite E2.
  set (c4 := mkConfig _ _ _ _).
  assert (P4 : pending c4 =
               pending c ++ (next c, k1) :: [(S (next c), k2)]).
  { subst c4 c3 c2 c1. simpl. now rewrite <- app_assoc. }
  assert (P4' : pending c4 =
                (pending c ++ [(next c, k1)]) ++ [(S (next c), k2)]).
  { rewrite P4. now rewrite <- app_assoc. }
  split.
  - destruct (respond_search c4 (next c) k1
                (pending c ++ [(S (next c), k2)]) status1 results1)
      as [_ P5].
    { rewrite P4. apply take_pending_app. exact Hne. }
    { intro s. now apply K1. }
    apply (respond_search _ (S (next c)) k2 (pending c ++ [])).
    + rewrite P5. apply take_pending_app. exact Hne'.
    + intro s. now apply K2.
  - destruct (respond_search c4 (S (next c)) k2
                ((pending c ++ [(next c, k1)]) ++ []) status2 results2)
      as [_ P5].
    { rewrite P4'. apply take_pending_app.
      intros i k Hin. apply in_app_or in Hin as [Hin|[Heq|[]]];
        [now apply (Hne' i k) | inversion Heq; lia]. }
    { intro s. now apply K2. }
    apply (respond_search _ (next c) k1 (pending c ++ [])).
    + rewrite P5, app_nil_r. apply take_pending_app. exact Hne.
    + intro s. now apply K1.
Qed.

(** ** The properties at concrete inputs *)

Lemma saveNote_conflict_preserves_draft_witness :
  editingNote editing_state = Some note_a /\
  valid_draft (currentNote editing_state) = true /\
  snd (exec (saveNote editing_state) [Response 409 NoPayload] editing_state) =
    [Fetch (update_request note_a (currentNote editing_state));
     Alert conflict_message] /\
  currentNote
    (fst (exec (saveNote editing_state) [Response 409 NoPayload]
            editing_state)) = Draft.of_note note_a.
Proof.
  split; [reflexivity|]. split; [reflexivity|].
  destruct (saveNote_conflict_preserves_draft editing_state note_a NoPayload
              [] eq_refl eq_refl) as (H1 & _ & _ & _ & H5 & _).
  split; [exact H1 | exact H5].
Defined.

Lemma saveNote_blank_draft_sends_nothing_witness :
  blank (Draft.title (currentNote blank_title_state)) = true /\
  exec (saveNote blank_title_state) [Response 201 NoPayload]
    blank_title_state =
    (blank_title_state, [Alert validation_message]).
Proof.
  split; [reflexivity|].
  apply (saveNote_blank_draft_sends_nothing blank_title_state
           [Response 201 NoPayload]).
  left. reflexivity.
Defined.

Lemma handleSearch_blank_query_short_circuits_witness :
  blank (searchQuery (setSearchQuery (lit "  ") searching_state)) = true /\
  exec (handleSearch (setSearchQuery (lit "  ") searching_state))
    [Response 200 (SearchPayload [result_b])]
    (setSearchQuery (lit "  ") searching_state) =
    (setSearchResults [] (setSearchQuery (lit "  ") searching_state), []).
Proof.
  split; [reflexivity|].
  apply (handleSearch_blank_query_short_circuits
           (setSearchQuery (lit "  ") searching_state)
           [Response 200 (SearchPayload [result_b])]).
  reflexivity.
Defined.

Lemma handleSearch_failure_keeps_results_witness :
  blank (searchQuery searching_state) = false /\
  failed (Response 500 NoPayload) = true /\
  searchResults
    (fst (exec (handleSearch searching_state) [Response 500 NoPayload]
            searching_state)) = [result_a].
Proof.
  split; [reflexivity|]. split; [reflexivity|].
  apply (handleSearch_failure_keeps_results searching_state
           (Response 500 NoPayload) []); reflexivity.
Defined.

Lemma render_excerpts_first_two_witness :
  List.length (matched_chunks result_b) = 5%nat /\
  render_excerpts result_b =
    Some [quote ++ firstn 100 (lit "three") ++ ellipsis ++ quote;
          quote ++ firstn 100 (lit "papers") ++ ellipsis ++ quote].
Proof.
  split; [reflexivity|].
  apply (render_excerpts_first_two result_b (lit "three") (lit "papers")
           [lit "on"; lit "search"; lit "three papers"]).
  reflexivity.
Defined.

Lemma mutation_success_refreshes_cache_witness :
  ok 201 = true /\
  valid_draft (currentNote creating_state) = true /\
  notes
    (fst (exec (saveNote creating_state)
            [Response 201 NoPayload; Response 200 (NotesPayload [note_b])]
            creating_state)) = [note_b].
Proof.
  split; [reflexivity|]. split; [reflexivity|].
  destruct (mutation_success_refreshes_cache creating_state 201 NoPayload
              (Response 200 (NotesPayload [note_b])) [] eq_refl)
    as [Hsave _].
  destruct (Hsave eq_refl) as [_ Hnotes]. exact Hnotes.
Defined.

Lemma transport_error_abandons_silently_witness :
  transport_error (Response 500 NoPayload) = true /\
  exec (saveNote creating_state) [Response 500 NoPayload] creating_state =
    (setLoading false creating_state, [Fetch (save_request creating_state)]).
Proof.
  split; [reflexivity|].
  destruct (transport_error_abandons_silently creating_state
              (Response 500 NoPayload) [] eq_refl) as (_ & Hsave & _).
  exact (Hsave eq_refl).
Defined.

Lemma search_last_completion_wins_witness :
  let started :=
    run initialConfig
      [ChangeSearchQuery (lit "eggs"); PressEnter;
       ChangeSearchQuery (lit "papers"); PressEnter] in
  searchResults
    (ui (run started
           [Respond 0 (Response 200 (SearchPayload [result_a]));
            Respond 1 (Response 200 (SearchPayload [result_b]))])) =
    [result_b] /\
  searchResults
    (ui (run started
           [Respond 1 (Response 200 (SearchPayload [result_b]));
            Respond 0 (Response 200 (SearchPayload [result_a]))])) =
    [result_a].
Proof.
  exact (search_last_completion_wins [] (lit "eggs") (lit "papers") 200 200
           [result_a] [result_b] eq_refl eq_refl eq_refl eq_refl).
Defined.

Lemma requests_never_carry_view_count_witness :
  In (Fetch edit_and_save_request) (trace (run initialConfig edit_and_save))
  /\ (forall o, body edit_and_save_request = Some o ->
        ~ In "view_count"%string (keys o))
  /\ (exists o, body edit_and_save_request = Some o /\
        get "version" o = Some (JNumber 3)).
Proof.
  assert (Hin : In (Fetch edit_and_save_request)
                  (trace (run initialConfig edit_and_save)))
    by (right; left; reflexivity).
  destruct (requests_never_carry_view_count edit_and_save
              edit_and_save_request Hin) as (Hno & _ & Hput).
  split; [exact Hin|]. split; [exact Hno|].
  destruct (Hput eq_refl) as (n & o & Hn & Hurl & Hbody & _ & _).
  exists o. split; [exact Hbody|].
  simpl in Hbody. inversion Hbody. reflexivity.
Defined.

Lemma closeModal_resets_session_witness :
  isModalOpen editing_state = true /\
  handler ClickClose editing_state = Some closeModal /\
  currentNote (fst (exec closeModal [] editing_state)) = Draft.default /\
  editingNote
    (fst (exec (saveNote editing_state)
            [Response 200 NoPayload; Response 200 (NotesPayload [note_a])]
            editing_state)) = None.
Proof.
  destruct (closeModal_resets_session editing_state [])
    as ((_ & _ & Hd) & Hc & Hs & _).
  split; [reflexivity|]. split; [exact (Hc eq_refl)|]. split; [exact Hd|].
  destruct (Hs 200 NoPayload (Response 200 (NotesPayload [note_a]))
              eq_refl eq_refl) as (_ & He & _).
  exact He.
Defined.

(** ** Where the code departs from the claims *)

(** C3 is broken by the code on the Enter path: of two overlapping searches,
    "eggs" then "papers", both started with the Enter key (the Search button
    is disabled while the first is outstanding, the key is not), the
    response for "eggs" arrives last and is what stays on display, although
    "papers" was the search initiated most recently. *)
Lemma stale_search_overwrites_newer :
  trace (run initialConfig overlapping_searches) =
    [Fetch (search_request (setSearchQuery (lit "eggs") initialState));
     Fetch (search_request (setSearchQuery (lit "papers") initialState))] /\
  searchResults (ui (run initialConfig overlapping_searches)) = [result_a] /\
  searchResults (ui (run initialConfig overlapping_searches)) <> [result_b].
Proof.
  split; [reflexivity|]. split; [reflexivity|].
  vm_compute. discriminate.
Qed.

(** C6 fails on the code: a create answered with status 500 produces the
    request and nothing else, neither a dialog nor a console message, and
    the state afterwards is the state before. *)
Lemma transport_error_not_reported :
  transport_error (Response 500 NoPayload) = true /\
  existsb notifies
    (snd (exec (saveNote creating_state) [Response 500 NoPayload]
            creating_state)) = false /\
  fst (exec (saveNote creating_state) [Response 500 NoPayload]
         creating_state) = creating_state.
Proof. repeat split; reflexivity. Qed.

(** ** Invariants of the event loop, in general *)

Section StableFacts.

Variable I : State -> Prop.
Variable G : Request -> Prop.

Lemma sync_keeps (t : Task) :
  forall s, keeps I G t s ->
    I (fst (fst (sync t s))) /\
    (forall req, In (Fetch req) (snd (fst (sync t s))) -> G req).
Proof.
  induction t as [| |f k IH|e k IH|req k IH]; intros s Hs; simpl in *.
  - split; [exact Hs | intros req []].
  - split; [exact Hs | intros req []].
  - apply IH, Hs.
  - destruct Hs as [He Hk]. specialize (IH s Hk).
    destruct (sync k s) as [[s' es] w]. simpl in *.
    destruct IH as [H1 H2]. split; [exact H1|].
    intros req [Heq|Hin]; [subst e; exact He | now apply H2].
  - destruct Hs as (H1 & H2 & _). split; [exact H1|].
    intros req' [Heq|[]]. now inversion Heq; subst.
Qed.

Lemma sync_resumable (t : Task) :
  forall s, resumable I G t ->
    match snd (sync t s) with
    | Waiting k =>
        forall r, resumable I G (k r) /\
                  forall s', I s' -> keeps I G (k r) s'
    | _ => True
    end.
Proof.
  induction t as [| |f k IH|e k IH|req k IH]; intros s Hr; simpl in *.
  - exact Logic.I.
  - exact Logic.I.
  - now apply IH.
  - specialize (IH s Hr). now destruct (sync k s) as [[s' es] w].
  - exact Hr.
Qed.

Lemma start_parked (t : Task) (c : Config) :
  resumable I G t -> parked I G c -> parked I G (start t c).
Proof.
  intros Hr Hp. unfold start.
  pose proof (sync_resumable t (ui c) Hr) as Hw.
  destruct (sync t (ui c)) as [[s' es] w]. simpl in Hw.
  destruct w as [| |k]; try exact Hp.
  intros id k' Hin. simpl in Hin.
  apply in_app_or in Hin as [Hin|[Heq|[]]].
  - now apply (Hp id).
  - inversion Heq; subst. exact Hw.
Qed.

Lemma start_keeps (t : Task) (c : Config) :
  keeps I G t (ui c) -> sent G c ->
  I (ui (start t c)) /\ sent G (start t c).
Proof.
  intros Hk Hs. unfold start.
  pose proof (sync_keeps t (ui c) Hk) as [H1 H2].
  destruct (sync t (ui c)) as [[s' es] w]. simpl in *.
  assert (Htr : forall req, In (Fetch req) (trace c ++ es) -> G req).
  { intros req Hin. apply in_app_or in Hin as [Hin|Hin]; auto. }
  destruct w; split; assumption.
Qed.

Hypothesis handlers_resumable :
  forall e snap t, handler e snap = Some t -> resumable I G t.

Lemma step_parked (c : Config) (e : Event) :
  parked I G c -> parked I G (step c e).
Proof.
  intro Hp.
  destruct e; unfold step;
    try (destruct (handler _ (ui c)) eqn:Eh;
         [apply start_parked; [now apply (handlers_resumable _ _ _ Eh)
                              | exact Hp]
         | exact Hp]).
  destruct (take_pending id (pending c)) as [[k rest]|] eqn:Et; [|exact Hp].
  apply take_pending_In in Et as [Hin Hrest].
  apply start_parked.
  - apply (Hp id k Hin r).
  - intros id' k' Hin'. apply (Hp id'). now apply Hrest.
Qed.

Lemma run_parked (es : list Event) : parked I G (run initialConfig es).
Proof.
  induction es as [|e es IH] using rev_ind.
  - intros id k [].
  - rewrite run_snoc. now apply step_parked.
Qed.

(** The events under which [I] is kept. *)
Variable allowed : Event -> Prop.

Hypothesis handlers_keep :
  forall e snap t,
    allowed e -> I snap -> handler e snap = Some t -> keeps I G t snap.

Lemma step_keeps (c : Config) (e : Event) :
  allowed e -> I (ui c) -> sent G c -> parked I G c ->
  I (ui (step c e)) /\ sent G (step c e).
Proof.
  intros Ha Hi Hs Hp.
  destruct e; unfold step;
    try (destruct (handler _ (ui c)) eqn:Eh;
         [apply start_keeps; [now apply (handlers_keep _ _ _ Ha Hi Eh)
                             | exact Hs]
         | split; assumption]).
  destruct (take_pending id (pending c)) as [[k rest]|] eqn:Et;
    [|split; assumption].
  apply take_pending_In in Et as [Hin _].
  apply start_keeps; [|exact Hs].
  simpl. now apply (Hp id k Hin r).
Qed.

Lemma run_keeps (es : list Event) :
  forall c,
    Forall allowed es -> I (ui c) -> sent G c -> parked I G c ->
    I (ui (run c es)) /\ sent G (run c es).
Proof.
  induction es as [|e es IH]; intros c Ha Hi Hs Hp.
  - split; assumption.
  - inversion Ha as [|e' es' He Hes]; subst. simpl.
    destruct (step_keeps c e He Hi Hs Hp) as [Hi' Hs'].
    apply IH; auto using step_parked.
Qed.

End StableFacts.

Lemma run_app (c : Config) (es es' : list Event) :
  run c (es ++ es') = run (run c es) es'.
Proof. unfold run. apply fold_left_app. Qed.

Lemma Forall_any_event (es : list Event) : Forall any_event es.
Proof. apply Forall_forall. intros e _. exact I. Qed.

Ltac crunch_with solver :=
  repeat (cbn; match goal with
    | |- _ /\ _ => split
    | |- True => exact I
    | |- any_request _ => exact I
    | |- any_state _ => exact I
    | |- forall _, _ => intro
    | |- context [match ?r with Rejected => _ | Response _ _ => _ end] =>
        destruct r
    | |- context [if ok ?st then _ else _] => destruct (ok st)
    | |- context [if (?st =? 409) then _ else _] => destruct (st =? 409)
    | |- context [match ?p with NotesPayload _ => _ | _ => _ end] =>
        destruct p
    | |- context [if negb ?b then _ else _] => destruct b
    | |- _ => solver
    end).

Ltac by_handler Ht :=
  repeat match type of Ht with
    | (if ?b then _ else _) = _ => destruct b eqn:?
    | match ?a with Some _ => _ | None => _ end = _ => destruct a eqn:?
    end;
  inversion Ht; subst; clear Ht.

(** ** The editing session in the event loop *)

Ltac reset_solver :=
  idtac; match goal with
  | |- closed_is_reset _ =>
      solve [unfold closed_is_reset in *; simpl in *; intros;
             try discriminate; try congruence; auto]
  end.

Lemma handlers_keep_reset (e : Event) (snap : State) (t : Task) :
  any_event e -> closed_is_reset snap -> handler e snap = Some t ->
  keeps closed_is_reset any_request t snap.
Proof.
  intros _ H Ht. destruct e; simpl in Ht; by_handler Ht;
    try unfold handleSearch, saveNote, deleteNote;
    repeat match goal with
      | |- context [if ?b then _ else _] => destruct b eqn:?
      end;
    crunch_with reset_solver.
Qed.

Lemma handlers_resumable_reset (e : Event) (snap : State) (t : Task) :
  handler e snap = Some t -> resumable closed_is_reset any_request t.
Proof.
  intros Ht. destruct e; simpl in Ht; by_handler Ht;
    try unfold handleSearch, saveNote, deleteNote;
    repeat match goal with
      | |- context [if ?b then _ else _] => destruct b eqn:?
      end;
    crunch_with reset_solver.
Qed.

(** X10: whenever the modal is closed the session is reset: no note is being
    edited and the draft is the default object. *)
Theorem closed_modal_holds_no_draft :
  forall (es : list Event),
    isModalOpen (ui (run initialConfig es)) = false ->
    editingNote (ui (run initialConfig es)) = None /\
    currentNote (ui (run initialConfig es)) = Draft.default.
Proof.
  intros es.
  apply (run_keeps closed_is_reset any_request handlers_resumable_reset
           any_event handlers_keep_reset es initialConfig).
  - apply Forall_any_event.
  - intros _. split; reflexivity.
  - intros req [].
  - intros id k [].
Qed.

(** ** Requests that are never sent *)

Lemma checked_search (snap : State) :
  blank (searchQuery snap) = false -> checked_request (search_request snap).
Proof.
  intro H. unfold checked_request. simpl.
  exists (searchQuery snap). eexists. repeat split. exact H.
Qed.

Lemma checked_save (snap : State) :
  valid_draft (currentNote snap) = true ->
  checked_request (save_request snap).
Proof.
  intro H. unfold valid_draft in H.
  apply andb_true_iff in H as [Ht Hc]. apply negb_true_iff in Ht, Hc.
  unfold checked_request, save_request.
  destruct (editingNote snap); simpl;
    exists (Draft.title (currentNote snap)),
           (Draft.content (currentNote snap));
    eexists; repeat split; assumption.
Qed.

Ltac checked_solver :=
  idtac; match goal with
  | |- checked_request (search_request _) => apply checked_search; assumption
  | |- checked_request (save_request _) => apply checked_save; assumption
  | |- checked_request _ => exact I
  end.

Ltac split_guards snap :=
  try (destruct (blank (searchQuery snap)) eqn:?Eb;
       [ rewrite (handleSearch_blank snap) by assumption
       | rewrite (handleSearch_nonblank snap) by assumption ]);
  try (destruct (valid_draft (currentNote snap)) eqn:?Ev;
       [ rewrite (saveNote_valid snap) by assumption
       | rewrite (saveNote_invalid snap) by assumption ]);
  idtac.

Lemma handlers_keep_checked (e : Event) (snap : State) (t : Task) :
  any_event e -> any_state snap -> handler e snap = Some t ->
  keeps any_state checked_request t snap.
Proof.
  intros _ _ Ht. destruct e; simpl in Ht; by_handler Ht;
    split_guards snap; crunch_with checked_solver.
Qed.

Lemma handlers_resumable_checked (e : Event) (snap : State) (t : Task) :
  handler e snap = Some t -> resumable any_state checked_request t.
Proof.
  intros Ht. destruct e; simpl in Ht; by_handler Ht;
    split_guards snap; crunch_with checked_solver.
Qed.

(** X5: in no run is a search sent with a blank query, or a note created or
    updated with a blank title or a blank content. *)
Theorem no_blank_request_is_sent :
  forall (es : list Event) (req : Request),
    In (Fetch req) (trace (run initialConfig es)) ->
    (url req = SearchUrl ->
     exists q o, body req = Some o /\
       get "query" o = Some (JString q) /\ blank q = false) /\
    (url req = NotesUrl ->
     exists t c o, body req = Some o /\
       get "title" o = Some (JString t) /\
       get "content" o = Some (JString c) /\
       blank t = false /\ blank c = false) /\
    (forall id, url req = NoteUrl id -> method req = PUT ->
     exists t c o, body req = Some o /\
       get "title" o = Some (JString t) /\
       get "content" o = Some (JString c) /\
       blank t = false /\ blank c = false).
Proof.
  intros es req Hin.
  assert (Hc : checked_request req).
  { refine (proj2 (run_keeps any_state checked_request
                     handlers_resumable_checked any_event
                     handlers_keep_checked es initialConfig
                     (Forall_any_event es) I _ _) req Hin).
    - intros r [].
    - intros id k []. }
  unfold checked_request in Hc. repeat split.
  - intro Hu. rewrite Hu in Hc. exact Hc.
  - intro Hu. rewrite Hu in Hc. exact Hc.
  - intros id Hu Hm. rewrite Hu, Hm in Hc. exact Hc.
Qed.

(** ** Analytics and the search box *)

Section StableFrom.

Variable I : State -> Prop.
Variable G : Request -> Prop.
Variable allowed : Event -> Prop.

(** Here the handlers need to behave only when they start in a state
    satisfying [I]. *)
Hypothesis handlers_keep_from :
  forall e snap t,
    allowed e -> I snap -> handler e snap = Some t ->
    keeps I G t snap /\ resumable I G t.

Lemma step_keeps_from (c : Config) (e : Event) :
  allowed e -> I (ui c) -> sent G c -> parked I G c ->
  I (ui (step c e)) /\ sent G (step c e) /\ parked I G (step c e).
Proof.
  intros Ha Hi Hs Hp.
  assert (Hstart : forall t c',
             ui c' = ui c -> sent G c' -> parked I G c' ->
             keeps I G t (ui c) -> resumable I G t ->
             I (ui (start t c')) /\ sent G (start t c') /\
             parked I G (start t c')).
  { intros t c' Hu Hs' Hp' Hk Hr. rewrite <- Hu in Hk.
    destruct (start_keeps I G t c' Hk Hs') as [H1 H2].
    split; [exact H1 | split; [exact H2 | now apply start_parked]]. }
  destruct e; unfold step;
    try (destruct (handler _ (ui c)) eqn:Eh;
         [ destruct (handlers_keep_from _ _ _ Ha Hi Eh) as [Hk Hr];
           now apply Hstart
         | split; [exact Hi | split; assumption] ]).
  destruct (take_pending id (pending c)) as [[k rest]|] eqn:Et;
    [|split; [exact Hi | split; assumption]].
  apply take_pending_In in Et as [Hin Hrest].
  destruct (Hp id k Hin r) as [Hr Hk].
  apply Hstart; [reflexivity | exact Hs | | now apply Hk | exact Hr].
  intros id' k' Hin'. apply (Hp id'). now apply Hrest.
Qed.

Lemma run_keeps_from (es : list Event) :
  forall c,
    Forall allowed es -> I (ui c) -> sent G c -> parked I G c ->
    I (ui (run c es)) /\ sent G (run c es) /\ parked I G (run c es).
Proof.
  induction es as [|e es IH]; intros c Ha Hi Hs Hp.
  - split; [exact Hi | split; assumption].
  - inversion Ha as [|e' es' He Hes]; subst. simpl.
    destruct (step_keeps_from c e He Hi Hs Hp) as (Hi' & Hs' & Hp').
    now apply IH.
Qed.

End StableFrom.

Ltac analytics_solver :=
  idtac; match goal with
  | |- analytics_are _ _ =>
      solve [unfold analytics_are in *; simpl in *; auto]
  end.

Lemma handlers_keep_analytics (data : Payload) (e : Event) (snap : State)
      (t : Task) :
  loaded data = true ->
  any_event e -> analytics_are data snap -> handler e snap = Some t ->
  keeps (analytics_are data) any_request t snap /\
  resumable (analytics_are data) any_request t.
Proof.
  intros Hd _ H Ht. destruct e; simpl in Ht;
    try (rewrite H, Hd in Ht);
    by_handler Ht; split_guards snap; split;
    crunch_with analytics_solver.
Qed.

(** X15: once the analytics hold a value and no request is outstanding, they
    never change again: the Load Analytics button is no longer rendered and
    nothing else fetches or sets them, whatever the user does and whatever
    the later responses are. *)
Theorem analytics_never_refreshed :
  forall (c : Config) (later : list Event),
    pending c = [] ->
    loaded (analytics (ui c)) = true ->
    analytics (ui (run c later)) = analytics (ui c) /\
    step (run c later) ClickLoadAnalytics = run c later.
Proof.
  intros c later Hp Hl.
  assert (Ha : analytics (ui (run c later)) = analytics (ui c)).
  { refine (proj1 (run_keeps_from (analytics_are (analytics (ui c)))
                     any_request any_event
                     (fun e snap t =>
                        handlers_keep_analytics (analytics (ui c)) e snap t
                          Hl)
                     later c (Forall_any_event later) eq_refl _ _)).
    - intros req _. exact I.
    - intros id k Hin. rewrite Hp in Hin. destruct Hin. }
  split; [exact Ha|].
  unfold step, handler. rewrite Ha, Hl.
  now destruct (showAnalytics (ui (run c later))).
Qed.

(** Without the condition on outstanding requests the analytics can still
    change: the Load button is not disabled while a load is running, and of
    two loads the second, answered with the body [null], unsets what the
    first had set. *)
Lemma overlapping_loads_can_unset_analytics :
  analytics (ui (run initialConfig (firstn 4 load_analytics_twice))) =
    AnalyticsPayload analytics_a /\
  analytics (ui (run initialConfig load_analytics_twice)) = NullPayload.
Proof. split; reflexivity. Qed.

Ltac box_solver :=
  idtac; match goal with
  | |- search_box _ _ _ =>
      solve [unfold search_box in *; simpl in *; auto]
  end.

Lemma handlers_keep_box (q ty : jsstring) (e : Event) (snap : State)
      (t : Task) :
  leaves_search_box e -> search_box q ty snap -> handler e snap = Some t ->
  keeps (search_box q ty) any_request t snap.
Proof.
  intros Ha H Ht. destruct e; simpl in Ht, Ha; try contradiction;
    by_handler Ht; split_guards snap; crunch_with box_solver.
Qed.

Lemma handlers_resumable_box (q ty : jsstring) (e : Event) (snap : State)
      (t : Task) :
  handler e snap = Some t -> resumable (search_box q ty) any_request t.
Proof.
  intros Ht. destruct e; simpl in Ht; by_handler Ht;
    split_guards snap; crunch_with box_solver.
Qed.

(** X16: the text and the mode of the search box change only when the user edits
    them: no search, blank or not, no response and no other control rewrites
    or clears them. *)
Theorem search_box_is_the_users :
  forall (es later : list Event),
    Forall leaves_search_box later ->
    searchQuery (ui (run initialConfig (es ++ later))) =
      searchQuery (ui (run initialConfig es)) /\
    searchType (ui (run initialConfig (es ++ later))) =
      searchType (ui (run initialConfig es)).
Proof.
  intros es later Hl. rewrite run_app.
  set (c := run initialConfig es).
  apply (run_keeps (search_box (searchQuery (ui c)) (searchType (ui c)))
           any_request
           (handlers_resumable_box (searchQuery (ui c)) (searchType (ui c)))
           leaves_search_box
           (handlers_keep_box (searchQuery (ui c)) (searchType (ui c)))
           later c Hl).
  - split; reflexivity.
  - intros req _. exact I.
  - apply run_parked.
    exact (handlers_resumable_box (searchQuery (ui c)) (searchType (ui c))).
Qed.

(** ** The handlers, outcome by outcome *)

Ltac outcomes :=
  repeat (simpl; match goal with
    | |- context [match ?r with Rejected => _ | Response _ _ => _ end] =>
        destruct r
    | |- context [if ok ?st then _ else _] => destruct (ok st)
    | |- context [if (?st =? 409) then _ else _] => destruct (st =? 409)
    | |- context [match ?p with NotesPayload _ => _ | _ => _ end] =>
        destruct p
    | |- context [match ?rs with [] => _ | _ :: _ => _ end] => destruct rs
    | |- context [if negb ?b then _ else _] => destruct b
    end).

(** X1: A search that succeeds sends the query exactly as it was typed (the
    trimmed text only serves the emptiness test) and replaces the displayed
    results by the list of the response, in the order received. *)
Theorem handleSearch_success_replaces_results :
  forall (s : State) (status : Z) (results : list SearchResult)
         (rs : list FetchResult),
    blank (searchQuery s) = false ->
    ok status = true ->
    let out :=
      exec (handleSearch s) (Response status (SearchPayload results) :: rs)
        s in
    fst out = setIsSearching false (setSearchResults results s) /\
    (exists o, snd out = [Fetch (mkRequest POST SearchUrl json_headers
                                   (Some o))] /\
       get "query" o = Some (JString (searchQuery s)) /\
       get "search_type" o = Some (JString (searchType s)) /\
       get "limit" o = Some (JNumber 10) /\
       get "include_content" o = Some (JBool true)).
Proof.
  intros s status results rs Hq Hok out. subst out.
  rewrite (handleSearch_nonblank s Hq). simpl. rewrite Hok. simpl.
  split; [reflexivity|]. eexists. repeat split.
Qed.

(** X2: A 2xx response whose body cannot be read is handled like a rejected
    fetch: the list or the search logs to the console, keeps what was
    cached or displayed, and resets its busy flag. *)
Theorem unreadable_body_is_a_failure :
  forall (s : State) (status : Z) (rs : list FetchResult),
    ok status = true ->
    exec fetchNotes (Response status NoPayload :: rs) s =
      (setLoading false s,
       [Fetch fetchNotes_request; ConsoleError "Failed to fetch notes:"]) /\
    exec fetchAnalytics (Response status NoPayload :: rs) s =
      (s, [Fetch fetchAnalytics_request;
           ConsoleError "Failed to fetch analytics:"]) /\
    (blank (searchQuery s) = false ->
     exec (handleSearch s) (Response status NoPayload :: rs) s =
       (setIsSearching false s,
        [Fetch (search_request s); ConsoleError "Search failed:"])).
Proof.
  intros s status rs Hok. repeat split.
  - simpl. now rewrite Hok.
  - simpl. now rewrite Hok.
  - intro Hq. rewrite (handleSearch_nonblank s Hq). simpl. now rewrite Hok.
Qed.

(** X3: whatever the outcomes, a handler that has run to its end has reset its
    busy flag: [loading] after [fetchNotes] and [saveNote], [isSearching]
    after [handleSearch]. *)
Theorem busy_flags_are_always_reset :
  forall (s : State) (r1 r2 : FetchResult) (rs : list FetchResult),
    loading (fst (exec fetchNotes (r1 :: rs) s)) = false /\
    (valid_draft (currentNote s) = true ->
     loading (fst (exec (saveNote s) (r1 :: r2 :: rs) s)) = false) /\
    (blank (searchQuery s) = false ->
     isSearching (fst (exec (handleSearch s) (r1 :: rs) s)) = false).
Proof.
  intros s r1 r2 rs. repeat split.
  - outcomes; reflexivity.
  - intro Hv. rewrite (saveNote_valid s Hv). outcomes; reflexivity.
  - intro Hq. rewrite (handleSearch_nonblank s Hq). outcomes; reflexivity.
Qed.

(** X6: saving and deleting never touch the search panel, and deleting never
    touches the editing session: whatever the outcomes, the displayed
    results are the ones displayed before (also when they show the note
    just changed or deleted).  A delete that is not confirmed sends nothing
    and changes nothing. *)
Theorem mutations_leave_search_results :
  forall (s : State) (id : Z) (answer : bool) (rs : list FetchResult),
    searchResults (fst (exec (saveNote s) rs s)) = searchResults s /\
    searchResults (fst (exec (deleteNote id answer) rs s)) =
      searchResults s /\
    isModalOpen (fst (exec (deleteNote id answer) rs s)) = isModalOpen s /\
    editingNote (fst (exec (deleteNote id answer) rs s)) = editingNote s /\
    currentNote (fst (exec (deleteNote id answer) rs s)) = currentNote s /\
    exec (deleteNote id false) rs s = (s, [Confirm confirm_message]).
Proof.
  intros s id answer rs.
  split.
  { destruct (valid_draft (currentNote s)) eqn:Hv.
    - rewrite (saveNote_valid s Hv). outcomes; reflexivity.
    - rewrite (saveNote_invalid s Hv). reflexivity. }
  repeat split; try reflexivity; destruct answer; outcomes; reflexivity.
Qed.

(** X7: searching never touches the cache or the editing session, whatever the
    query and the outcome. *)
Theorem search_leaves_cache_and_session :
  forall (s : State) (rs : list FetchResult),
    let s' := fst (exec (handleSearch s) rs s) in
    notes s' = notes s /\ loading s' = loading s /\
    isModalOpen s' = isModalOpen s /\ editingNote s' = editingNote s /\
    currentNote s' = currentNote s.
Proof.
  intros s rs s'. subst s'.
  destruct (blank (searchQuery s)) eqn:Hq.
  - rewrite (handleSearch_blank s Hq). repeat split; reflexivity.
  - rewrite (handleSearch_nonblank s Hq).
    repeat split; outcomes; reflexivity.
Qed.

(** ** How the operations compose *)

(** X8: opening a note and saving it without an edit sends the five fields of
    that note back to its own URL; id, view_count and updated_at are not in
    the body. *)
Theorem open_then_save_round_trip :
  forall (s : State) (n : Note.t),
    blank (Note.title n) = false ->
    blank (Note.content n) = false ->
    let opened := fst (exec (openModal (Some n)) [] s) in
    snd (exec (saveNote opened) [] opened) =
      [Fetch (mkRequest PUT (NoteUrl (Note.id n)) json_headers
                (Some [("title", JString (Note.title n));
                       ("content", JString (Note.content n));
                       ("is_public", JBool (Note.is_public n));
                       ("tags", JString (Note.tags n));
                       ("version", JNumber (Note.version n))]%string))].
Proof.
  intros s n Ht Hc opened.
  assert (Hv : valid_draft (currentNote opened) = true).
  { subst opened. unfold valid_draft. simpl. now rewrite Ht, Hc. }
  rewrite (saveNote_valid opened Hv). reflexivity.
Qed.

(** X12: A second click on Save or on Search right after the first one does
    nothing: the first click has raised the flag that disables the
    button. *)
Theorem second_click_is_ignored :
  forall (c : Config),
    (valid_draft (currentNote (ui c)) = true ->
     step (step c ClickSave) ClickSave = step c ClickSave) /\
    (blank (searchQuery (ui c)) = false ->
     step (step c ClickSearch) ClickSearch = step c ClickSearch).
Proof.
  intro c. split.
  - intro Hv. unfold step at 2 3. unfold handler.
    destruct (isModalOpen (ui c) && negb (loading (ui c))) eqn:E.
    + rewrite (saveNote_valid (ui c) Hv).
      unfold step, handler. simpl.
      apply andb_true_iff in E as [Ho _]. rewrite Ho. reflexivity.
    + unfold step, handler. now rewrite E.
  - intro Hq. unfold step at 2 3. unfold handler.
    destruct (isSearching (ui c)) eqn:E.
    + unfold step, handler. now rewrite E.
    + rewrite (handleSearch_nonblank (ui c) Hq). reflexivity.
Qed.

(** X13: the Enter key has no such guard: pressed twice on a query that is not
    blank it starts two searches, both outstanding. *)
Theorem enter_twice_sends_two_searches :
  forall (c : Config),
    blank (searchQuery (ui c)) = false ->
    let c' := step (step c PressEnter) PressEnter in
    trace c' =
      trace c ++ [Fetch (search_request (ui c));
                  Fetch (search_request (setIsSearching true (ui c)))] /\
    next c' = S (S (next c)) /\
    List.length (pending c') = S (S (List.length (pending c))).
Proof.
  intros c Hq c'. subst c'.
  destruct (step_PressEnter c Hq) as (k1 & E1 & _). rewrite E1.
  set (c1 := mkConfig _ _ _ _).
  destruct (step_PressEnter c1 Hq) as (k2 & E2 & _). rewrite E2.
  subst c1. simpl. repeat split.
  - now rewrite <- app_assoc.
  - rewrite !length_app. simpl. lia.
Qed.

(** ** What is on screen *)

Lemma notesGrid_idle (s : State) :
  loading s = false ->
  notesGrid s = match notes s with [] => NoNotesYet | _ => Cards (notes s) end.
Proof.
  intro H. unfold notesGrid. rewrite H. simpl. now destruct (notes s).
Qed.

(** X17: while a list fetch is outstanding the cards of the previous cache stay
    on screen, and placeholders show only when the cache is empty.  Once the
    fetch has completed, whatever its outcome, the placeholders are gone; a
    fetch that fails on an empty cache shows the same "No notes yet" as an
    account without notes. *)
Theorem notesGrid_around_a_fetch :
  forall (s : State) (r : FetchResult) (rs : list FetchResult),
    let during := fst (exec fetchNotes [] s) in
    let after := fst (exec fetchNotes (r :: rs) s) in
    notesGrid during =
      match notes s with [] => Skeletons 6 | _ => Cards (notes s) end /\
    notesGrid after =
      match notes after with [] => NoNotesYet | _ => Cards (notes after) end
    /\ (failed r = true -> notes s = [] -> notesGrid after = NoNotesYet).
Proof.
  intros s r rs during after.
  assert (Hl : loading after = false).
  { subst after. outcomes; reflexivity. }
  split; [|split].
  - subst during. unfold notesGrid. simpl. now destruct (notes s).
  - now apply notesGrid_idle.
  - intros Hf Hn. rewrite (notesGrid_idle after Hl).
    assert (Ha : notes after = notes s).
    { subst after. destruct r as [|status p]; simpl in *; [reflexivity|].
      apply negb_true_iff in Hf. now rewrite Hf. }
    now rewrite Ha, Hn.
Qed.

(** X18: the heading of the modal, the text of its submit button and the request
    that [saveNote] sends are decided by the same test: an edit session says
    "Edit Note" / "Update Note" and sends a PUT to the note's URL, a create
    session says "Create New Note" / "Create Note" and sends a POST to
    /notes. *)
Theorem modal_says_what_save_does :
  forall (s : State),
    loading s = false ->
    (exists n, editingNote s = Some n /\
       modalTitle s = "Edit Note"%string /\
       saveLabel s = "Update Note"%string /\
       method (save_request s) = PUT /\
       url (save_request s) = NoteUrl (Note.id n)) \/
    (editingNote s = None /\
     modalTitle s = "Create New Note"%string /\
     saveLabel s = "Create Note"%string /\
     method (save_request s) = POST /\
     url (save_request s) = NotesUrl).
Proof.
  intros s Hl. unfold modalTitle, saveLabel, save_request. rewrite Hl.
  destruct (editingNote s) as [n|]; [left; exists n | right];
    repeat split; reflexivity.
Qed.

Lemma length_render_excerpt (chunk : jsstring) :
  List.length (render_excerpt chunk) =
    (Nat.min 100 (List.length chunk) + 5)%nat.
Proof.
  unfold render_excerpt. rewrite substring_0.
  rewrite !length_app, length_firstn. simpl. lia.
Qed.

(** X19: the excerpt block of a result is left out when there is no matched
    chunk; otherwise it shows [min 2 n] of the [n] chunks, the first ones in
    their order, and no box is longer than 105 code units. *)
Theorem render_excerpts_at_most_two :
  forall (result : SearchResult),
    match render_excerpts result with
    | None => matched_chunks result = []
    | Some boxes =>
        matched_chunks result <> [] /\
        boxes = map render_excerpt (firstn 2 (matched_chunks result)) /\
        List.length boxes =
          Nat.min 2 (List.length (matched_chunks result)) /\
        Forall (fun box => (List.length box <= 105)%nat) boxes
    end.
Proof.
  intro result. unfold render_excerpts.
  destruct (matched_chunks result) as [|c1 chunks] eqn:E; [reflexivity|].
  cbn [List.length Nat.ltb Nat.leb]. unfold slice. cbn [skipn].
  split; [discriminate|]. split; [reflexivity|]. split.
  - rewrite length_map. destruct chunks as [|c2 chunks]; reflexivity.
  - apply Forall_forall. intros box Hin.
    apply in_map_iff in Hin as (chunk & <- & _).
    rewrite length_render_excerpt. lia.
Qed.


(** ** The busy flag is shared *)

Lemma step_ClickDelete (c : Config) (id : Z) :
  exists kd,
    step c (ClickDelete id true) =
      mkConfig (ui c) (pending c ++ [(next c, kd)]) (S (next c))
        (trace c ++ [Confirm confirm_message; Fetch (delete_request id)]) /\
    forall status p, ok status = true ->
      exists kl,
        (forall s, sync (kd (Response status p)) s =
           (setLoading true s, [Fetch fetchNotes_request], Waiting kl)) /\
        forall r s, exists s' es,
          sync (kl r) s = (s', es, Finished) /\
          loading s' = false /\ isModalOpen s' = isModalOpen s /\
          editingNote s' = editingNote s /\ currentNote s' = currentNote s.
Proof.
  eexists. split; [reflexivity|].
  intros status p Hok. eexists. split.
  - intro s. simpl. rewrite Hok. reflexivity.
  - intros r s. destruct r as [|st [data|results|data| |]]; simpl;
      try destruct (ok st); simpl; eexists; eexists;
      repeat split; reflexivity.
Qed.

Lemma step_ClickSave (c : Config) :
  isModalOpen (ui c) = true -> loading (ui c) = false ->
  valid_draft (currentNote (ui c)) = true ->
  exists ks,
    step c ClickSave =
      mkConfig (setLoading true (ui c)) (pending c ++ [(next c, ks)])
        (S (next c)) (trace c ++ [Fetch (save_request (ui c))]).
Proof.
  intros Ho Hl Hv. unfold step, handler. rewrite Ho, Hl.
  rewrite (saveNote_valid (ui c) Hv). eexists. reflexivity.
Qed.

Lemma step_Respond_waiting (c : Config) (id : nat) (r : FetchResult)
      (k k' : FetchResult -> Task)
      (rest : list (nat * (FetchResult -> Task)))
      (s' : State) (es : list Effect) :
  take_pending id (pending c) = Some (k, rest) ->
  sync (k r) (ui c) = (s', es, Waiting k') ->
  step c (Respond id r) =
    mkConfig s' (rest ++ [(next c, k')]) (S (next c)) (trace c ++ es).
Proof.
  intros Ht Hs. unfold step. rewrite Ht. unfold start. simpl.
  now rewrite Hs.
Qed.

Lemma step_Respond_finished (c : Config) (id : nat) (r : FetchResult)
      (k : FetchResult -> Task)
      (rest : list (nat * (FetchResult -> Task)))
      (s' : State) (es : list Effect) :
  take_pending id (pending c) = Some (k, rest) ->
  sync (k r) (ui c) = (s', es, Finished) ->
  step c (Respond id r) = mkConfig s' rest (next c) (trace c ++ es).
Proof.
  intros Ht Hs. unfold step. rewrite Ht. unfold start. simpl.
  now rewrite Hs.
Qed.

(** X14: [loading] serves both the list fetch and the save.  When a delete is
    answered while a save is outstanding, the refresh it starts resets
    [loading] at its end, the Save button is enabled again, and a second
    click sends the same create request a second time while the first is
    still unanswered. *)
Theorem refresh_reenables_save :
  forall (es : list Event) (id : Z) (title content : jsstring)
         (status : Z) (p : Payload) (r : FetchResult),
    let c := run initialConfig es in
    let d := Draft.with_content content
               (Draft.with_title title Draft.default) in
    loading (ui c) = false ->
    blank title = false -> blank content = false -> ok status = true ->
    let c' :=
      run c [ClickDelete id true; ClickNewNote; ChangeTitle title;
             ChangeContent content; ClickSave;
             Respond (next c) (Response status p);
             Respond (S (S (next c))) r] in
    loading (ui c') = false /\
    (exists k, In (S (next c), k) (pending c')) /\
    In (Fetch (create_request d)) (trace c') /\
    trace (step c' ClickSave) = trace c' ++ [Fetch (create_request d)].
Proof.
  intros es id title content status p r c d Hl Ht Hc Hok c'.
  assert (Hfresh : fresh c) by apply run_fresh.
  assert (Hne : forall i k, In (i, k) (pending c) -> i <> next c).
  { intros i k Hin. apply Hfresh in Hin. lia. }
  assert (Hne2 : forall i k, In (i, k) (pending c) -> i <> S (S (next c))).
  { intros i k Hin. apply Hfresh in Hin. lia. }
  subst c'. unfold run. cbn [fold_left].
  destruct (step_ClickDelete c id) as (kd & E1 & Kd). rewrite E1.
  destruct (Kd status p Hok) as (kl & Kd' & Kl).
  set (c1 := mkConfig _ _ _ _).
  set (c4 := step (step (step c1 ClickNewNote) (ChangeTitle title))
               (ChangeContent content)).
  assert (U4 : ui c4 =
               setCurrentNote d
                 (setIsModalOpen true
                    (setCurrentNote Draft.default
                       (setEditingNote None (ui c))))) by reflexivity.
  assert (P4 : pending c4 = pending c ++ [(next c, kd)]) by reflexivity.
  assert (N4 : next c4 = S (next c)) by reflexivity.
  assert (Ho4 : isModalOpen (ui c4) = true) by reflexivity.
  assert (Hl4 : loading (ui c4) = false) by (rewrite U4; exact Hl).
  assert (Hv4 : valid_draft (currentNote (ui c4)) = true).
  { rewrite U4. unfold valid_draft. simpl. now rewrite Ht, Hc. }
  assert (R4 : save_request (ui c4) = create_request d) by reflexivity.
  destruct (step_ClickSave c4 Ho4 Hl4 Hv4) as (ks & E5). rewrite E5.
  rewrite P4, N4, R4.
  match goal with
  | |- context [step ?x (Respond (next c) _)] => set (c5 := x)
  end.
  rewrite (step_Respond_waiting c5 (next c) _ kd kl
             (pending c ++ [(S (next c), ks)])
             (setLoading true (ui c5)) [Fetch fetchNotes_request]);
    [ | subst c5; simpl; rewrite <- app_assoc;
        apply take_pending_app; exact Hne
      | apply Kd' ].
  match goal with
  | |- context [step ?x (Respond (S (S (next c))) _)] => set (c6 := x)
  end.
  destruct (Kl r (ui c6)) as (s7 & es7 & S7 & L7 & O7 & E7 & C7).
  rewrite (step_Respond_finished c6 (S (S (next c))) r kl
             ((pending c ++ [(S (next c), ks)]) ++ []) s7 es7);
    [ | subst c6 c5; simpl;
        apply (take_pending_app (S (S (next c))) kl
                 (pending c ++ [(S (next c), ks)]) []);
        intros i k Hin; apply in_app_or in Hin as [Hin|[Heq|[]]];
        [ now apply (Hne2 i k) | inversion Heq; lia ]
      | exact S7 ].
  match goal with
  | |- context [step ?x ClickSave] => set (c7 := x)
  end.
  split; [exact L7|]. split.
  - exists ks. subst c7. simpl. rewrite app_nil_r.
    apply in_or_app. right. now left.
  - split.
    + subst c7 c6 c5. simpl. apply in_or_app. left. apply in_or_app. left.
      apply in_or_app. right. now left.
    + assert (Ho7 : isModalOpen (ui c7) = true).
      { subst c7. simpl. rewrite O7. reflexivity. }
      assert (Hl7 : loading (ui c7) = false) by exact L7.
      assert (C7' : currentNote (ui c7) = d).
      { subst c7. simpl. rewrite C7. reflexivity. }
      assert (E7' : editingNote (ui c7) = None).
      { subst c7. simpl. rewrite E7. reflexivity. }
      assert (Hv7 : valid_draft (currentNote (ui c7)) = true).
      { rewrite C7'. unfold valid_draft. simpl. now rewrite Ht, Hc. }
      assert (R7 : save_request (ui c7) = create_request d).
      { unfold save_request. now rewrite E7', C7'. }
      destruct (step_ClickSave c7 Ho7 Hl7 Hv7) as (ks' & E8).
      rewrite E8, R7. reflexivity.
Qed.

(** ** The further properties at concrete inputs *)

Lemma closed_modal_holds_no_draft_witness :
  isModalOpen (ui (run initialConfig edit_and_cancel)) = false /\
  currentNote (ui (run initialConfig edit_and_cancel)) = Draft.default.
Proof.
  split; [reflexivity|].
  exact (proj2 (closed_modal_holds_no_draft edit_and_cancel eq_refl)).
Defined.

Lemma no_blank_request_is_sent_witness :
  In (Fetch edit_and_save_request) (trace (run initialConfig edit_and_save))
  /\ exists t c o,
       body edit_and_save_request = Some o /\
       get "title" o = Some (JString t) /\
       get "content" o = Some (JString c) /\
       blank t = false /\ blank c = false.
Proof.
  assert (Hin : In (Fetch edit_and_save_request)
                  (trace (run initialConfig edit_and_save)))
    by (right; left; reflexivity).
  split; [exact Hin|].
  destruct (no_blank_request_is_sent edit_and_save edit_and_save_request
              Hin) as (_ & _ & Hput).
  exact (Hput 1 eq_refl eq_refl).
Defined.

Lemma analytics_never_refreshed_witness :
  pending (run initialConfig load_analytics) = [] /\
  loaded (analytics (ui (run initialConfig load_analytics))) = true /\
  analytics
    (ui (run (run initialConfig load_analytics)
           [ClickAnalytics; ClickAnalytics; ClickLoadAnalytics; Mount;
            Respond 1 (Response 200 NullPayload)])) =
    AnalyticsPayload analytics_a.
Proof.
  split; [reflexivity|]. split; [reflexivity|].
  exact (proj1 (analytics_never_refreshed (run initialConfig load_analytics)
                  [ClickAnalytics; ClickAnalytics; ClickLoadAnalytics; Mount;
                   Respond 1 (Response 200 NullPayload)]
                  eq_refl eq_refl)).
Defined.

Lemma search_box_is_the_users_witness :
  Forall leaves_search_box search_then_browse /\
  searchQuery
    (ui (run initialConfig
           ([ChangeSearchQuery (lit "eggs")] ++ search_then_browse))) =
    lit "eggs".
Proof.
  assert (H : Forall leaves_search_box search_then_browse)
    by (repeat constructor).
  split; [exact H|].
  exact (proj1 (search_box_is_the_users [ChangeSearchQuery (lit "eggs")]
                  search_then_browse H)).
Defined.

Lemma handleSearch_success_replaces_results_witness :
  blank (lit " eggs ") = false /\ ok 200 = true /\
  fst (exec (handleSearch (setSearchQuery (lit " eggs ") searching_state))
         [Response 200 (SearchPayload [result_b])]
         (setSearchQuery (lit " eggs ") searching_state)) =
    setIsSearching false
      (setSearchResults [result_b]
         (setSearchQuery (lit " eggs ") searching_state)).
Proof.
  split; [reflexivity|]. split; [reflexivity|].
  exact (proj1 (handleSearch_success_replaces_results
                  (setSearchQuery (lit " eggs ") searching_state) 200
                  [result_b] [] eq_refl eq_refl)).
Defined.

Lemma unreadable_body_is_a_failure_witness :
  ok 200 = true /\
  exec fetchNotes [Response 200 NoPayload] searching_state =
    (setLoading false searching_state,
     [Fetch fetchNotes_request; ConsoleError "Failed to fetch notes:"]).
Proof.
  split; [reflexivity|].
  exact (proj1 (unreadable_body_is_a_failure searching_state 200 []
                  eq_refl)).
Defined.

Lemma busy_flags_are_always_reset_witness :
  valid_draft (currentNote creating_state) = true /\
  loading
    (fst (exec (saveNote creating_state)
            [Response 201 NoPayload; Rejected] creating_state)) = false.
Proof.
  split; [reflexivity|].
  destruct (busy_flags_are_always_reset creating_state
              (Response 201 NoPayload) Rejected []) as (_ & Hsave & _).
  exact (Hsave eq_refl).
Defined.

Lemma open_then_save_round_trip_witness :
  blank (Note.title note_b) = false /\
  blank (Note.content note_b) = false /\
  snd (exec (saveNote (fst (exec (openModal (Some note_b)) [] creating_state)))
         [] (fst (exec (openModal (Some note_b)) [] creating_state))) =
    [Fetch (mkRequest PUT (NoteUrl 2) json_headers
              (Some [("title", JString (lit "Reading list"));
                     ("content", JString (lit "three papers on search"));
                     ("is_public", JBool true);
                     ("tags", JString (lit "work"));
                     ("version", JNumber 1)]%string))].
Proof.
  split; [reflexivity|]. split; [reflexivity|].
  exact (open_then_save_round_trip creating_state note_b eq_refl eq_refl).
Defined.

Lemma second_click_is_ignored_witness :
  valid_draft
    (currentNote (ui (mkConfig creating_state [] 0%nat []))) = true /\
  step (step (mkConfig creating_state [] 0%nat []) ClickSave) ClickSave =
    step (mkConfig creating_state [] 0%nat []) ClickSave /\
  step (step (mkConfig searching_state [] 0%nat []) ClickSearch) ClickSearch =
    step (mkConfig searching_state [] 0%nat []) ClickSearch.
Proof.
  split; [reflexivity|]. split.
  - exact (proj1 (second_click_is_ignored
                    (mkConfig creating_state [] 0%nat [])) eq_refl).
  - exact (proj2 (second_click_is_ignored
                    (mkConfig searching_state [] 0%nat [])) eq_refl).
Defined.

Lemma enter_twice_sends_two_searches_witness :
  blank (searchQuery (ui (mkConfig searching_state [] 0%nat []))) = false /\
  next (step (step (mkConfig searching_state [] 0%nat []) PressEnter)
          PressEnter) = 2%nat.
Proof.
  split; [reflexivity|].
  destruct (enter_twice_sends_two_searches
              (mkConfig searching_state [] 0%nat []) eq_refl)
    as (_ & Hn & _).
  exact Hn.
Defined.

Lemma notesGrid_around_a_fetch_witness :
  failed (Response 500 NoPayload) = true /\
  notes initialState = [] /\
  notesGrid (fst (exec fetchNotes [] initialState)) = Skeletons 6 /\
  notesGrid (fst (exec fetchNotes [Response 500 NoPayload] initialState)) =
    NoNotesYet.
Proof.
  split; [reflexivity|]. split; [reflexivity|].
  destruct (notesGrid_around_a_fetch initialState (Response 500 NoPayload)
              []) as (Hd & _ & Hf).
  split; [exact Hd | exact (Hf eq_refl eq_refl)].
Defined.

Lemma modal_says_what_save_does_witness :
  loading editing_state = false /\
  saveLabel editing_state = "Update Note"%string /\
  method (save_request editing_state) = PUT.
Proof.
  split; [reflexivity|].
  destruct (modal_says_what_save_does editing_state eq_refl)
    as [(n & _ & _ & Hl & Hm & _) | (He & _)].
  - split; [exact Hl | exact Hm].
  - discriminate He.
Defined.


Lemma refresh_reenables_save_witness :
  let c' :=
    run initialConfig
      [ClickDelete 2 true; ClickNewNote; ChangeTitle (lit "Title");
       ChangeContent (lit "Body"); ClickSave;
       Respond 0 (Response 204 NoPayload);
       Respond 2 (Response 200 (NotesPayload [note_a]))] in
  loading (ui c') = false /\
  (exists k, In (1%nat, k) (pending c')) /\
  In (Fetch (create_request
               (Draft.with_content (lit "Body")
                  (Draft.with_title (lit "Title") Draft.default))))
     (trace c') /\
  trace (step c' ClickSave) =
    trace c' ++
    [Fetch (create_request
              (Draft.with_content (lit "Body")
                 (Draft.with_title (lit "Title") Draft.default)))].
Proof.
  exact (refresh_reenables_save [] 2 (lit "Title") (lit "Body") 204
           NoPayload (Response 200 (NotesPayload [note_a]))
           eq_refl eq_refl eq_refl eq_refl).
Defined.

(** X4: [saveNote] sends a request exactly when neither the title nor the
    content of the draft is blank, and [handleSearch] exactly when the query
    is not blank. *)
Theorem request_sent_iff_not_blank :
  forall (s : State) (rs : list FetchResult),
    ((exists req, In (Fetch req) (snd (exec (saveNote s) rs s))) <->
     blank (Draft.title (currentNote s)) = false /\
     blank (Draft.content (currentNote s)) = false) /\
    ((exists req, In (Fetch req) (snd (exec (handleSearch s) rs s))) <->
     blank (searchQuery s) = false).
Proof.
  intros s rs. split.
  - destruct (valid_draft (currentNote s)) eqn:Hv.
    + rewrite (saveNote_valid s Hv). unfold valid_draft in Hv.
      apply andb_true_iff in Hv as [Ht Hc]. apply negb_true_iff in Ht, Hc.
      split; [intros _; split; assumption|]. intros _.
      exists (save_request s). simpl. destruct rs as [|r rs]; [now left|].
      match goal with |- context [exec ?t ?l ?x] => destruct (exec t l x) end.
      now left.
    + rewrite (saveNote_invalid s Hv). split.
      * intros [req [H|[]]]. discriminate H.
      * intros [Ht Hc]. unfold valid_draft in Hv. rewrite Ht, Hc in Hv.
        discriminate Hv.
  - destruct (blank (searchQuery s)) eqn:Hq.
    + rewrite (handleSearch_blank s Hq). split; [|discriminate].
      intros [req []].
    + rewrite (handleSearch_nonblank s Hq). split; [reflexivity|]. intros _.
      exists (search_request s). simpl. destruct rs as [|r rs]; [now left|].
      match goal with |- context [exec ?t ?l ?x] => destruct (exec t l x) end.
      now left.
Qed.

Lemma request_sent_iff_not_blank_witness :
  (exists req,
      In (Fetch req) (snd (exec (saveNote creating_state) [] creating_state)))
  /\ ~ (exists req,
      In (Fetch req)
        (snd (exec (saveNote blank_title_state) [] blank_title_state))).
Proof.
  split.
  - apply (proj1 (request_sent_iff_not_blank creating_state [])).
    split; reflexivity.
  - intro H.
    apply (proj1 (request_sent_iff_not_blank blank_title_state [])) in H.
    destruct H as [H _]. discriminate H.
Defined.

Lemma draft_version_pinned_witness :
  editingNote (ui (run initialConfig edit_and_save)) = Some note_a /\
  Draft.version (currentNote (ui (run initialConfig edit_and_save))) = 3.
Proof.
  split; [reflexivity|].
  exact (proj2 (draft_version_pinned edit_and_save note_a eq_refl)).
Defined.

Lemma saveNote_conflict_resumption_witness :
  valid_draft (currentNote editing_state) = true /\
  exists k,
    sync (saveNote editing_state) editing_state =
      (setLoading true editing_state,
       [Fetch (save_request editing_state)], Waiting k) /\
    sync (k (Response 409 NoPayload))
      (setCurrentNote
         (Draft.with_content (lit "bread") (currentNote editing_state))
         (setLoading true editing_state)) =
      (setLoading false
         (setCurrentNote
            (Draft.with_content (lit "bread") (currentNote editing_state))
            editing_state),
       [Alert conflict_message], Finished).
Proof.
  split; [reflexivity|].
  destruct (saveNote_conflict_resumption editing_state eq_refl)
    as (k & Hs & Hk).
  exists k. split; [exact Hs|].
  exact (Hk NoPayload
           (setCurrentNote
              (Draft.with_content (lit "bread") (currentNote editing_state))
              (setLoading true editing_state))).
Defined.
